(** * api_bench/python/benchmark_serving.py: load generation and metrics

    A shallow embedding of the request scheduler ([get_request],
    [get_request_async]), the per-thread driver ([benchmark], [benchThread]),
    the thread fan-out of [main] and the aggregator ([calculate_metrics]),
    followed by the properties of the design document that concern them.

    Python [float] is IEEE binary64, so it is modelled by Rocq's primitive
    floats; Python [int] is [Z]; [len] of a list is [Z.of_nat (List.length _)].
    Exceptions are values of [Py.exn] carried by [Py.result]. *)

From Stdlib Require Import ZArith List String Bool Lia.
From Stdlib Require Import PrimFloat FloatOps SpecFloat.
Import ListNotations.

Set Warnings "-inexact-float".

(** ** The Python runtime, as far as the module relies on it *)

Module Py.

Inductive exn : Set :=
| ZeroDivisionError
| ValueError
| IndexError
| TypeError
| AttributeError
| AssertionError.

Inductive result (A : Type) : Type :=
| Ok (a : A)
| Raise (e : exn).

Arguments Ok {A} a.
Arguments Raise {A} e.

Definition bind {A B : Type} (m : result A) (k : A -> result B) : result B :=
  match m with
  | Ok a => k a
  | Raise e => Raise e
  end.

Definition raises {A : Type} (m : result A) : Prop :=
  exists e, m = Raise e.

Definition len {A : Type} (l : list A) : Z := Z.of_nat (List.length l).

(** [int.__float__]: the nearest double, ties to even.  CPython raises
    [OverflowError] for an [int] whose magnitude is [2^1024 - 2^970] or
    more; this conversion gives an infinity there, so it stands for the
    code on integers below that bound only.  Statements that promise a
    value computed through it bound the integers they convert (see
    [within_double_range]). *)
Definition float_of_int (z : Z) : float :=
  SF2Prim (binary_normalize prec emax z 0 false).

(** [a / b] on two [int]s.  For operands below 2^53, as list lengths are,
    CPython divides the two converted doubles. *)
Definition int_truediv (a b : Z) : result float :=
  if (b =? 0)%Z then Raise ZeroDivisionError
  else Ok (float_of_int a / float_of_int b)%float.

(** [a / b] with [a : int] and [b : float]: "float division by zero" when
    [b] is [0.0] or [-0.0]. *)
Definition int_div_float (a : Z) (b : float) : result float :=
  if (b =? 0)%float then Raise ZeroDivisionError
  else Ok (float_of_int a / b)%float.

(** [a / b] with [a : float] and [b : int]; a nonzero [int] never converts
    to zero, so the zero test is made on the [int]. *)
Definition float_div_int (a : float) (b : Z) : result float :=
  if (b =? 0)%Z then Raise ZeroDivisionError
  else Ok (a / float_of_int b)%float.

(** [a / b] on two [float]s. *)
Definition float_div (a b : float) : result float :=
  if (b =? 0)%float then Raise ZeroDivisionError
  else Ok (a / b)%float.

(** [a - b] where either operand may be [None]. *)
Definition sub (a b : option float) : result float :=
  match a, b with
  | Some x, Some y => Ok (x - y)%float
  | _, _ => Raise TypeError
  end.

(** [l[i]] for an index [i >= 0]. *)
Definition getitem {A : Type} (l : list A) (i : nat) : result A :=
  match nth_error l i with
  | Some a => Ok a
  | None => Raise IndexError
  end.

(** The builtin [sum] over a list of [int]. *)
Definition sum (l : list Z) : Z := fold_left Z.add l 0%Z.

(** A slice bound brought into [0 .. len]: a negative bound counts from
    the end, and both ends clip. *)
Definition clip (n i : Z) : Z :=
  if (i <? 0)%Z then Z.max 0 (i + n) else Z.min i n.

(** The slice [l[lo:hi]]. *)
Definition slice {A : Type} (l : list A) (lo hi : Z) : list A :=
  let a := clip (len l) lo in
  let b := clip (len l) hi in
  firstn (Z.to_nat (b - a)) (skipn (Z.to_nat a) l).

End Py.

Import Py.

Declare Scope py_scope.
Delimit Scope py_scope with py.
Notation "x <- m ;; k" := (Py.bind m (fun x => k))
  (at level 61, m at next level, right associativity) : py_scope.
Open Scope py_scope.

(** ** numpy reductions used by the aggregator

    numpy is an external library; these definitions follow its documented
    behaviour on one-dimensional float64 data.  A list holding [None]
    becomes an object array on which every reduction used here ends in a
    [TypeError]. *)

Module np.

(** What the aggregator hands to numpy: a list, or the integer of
    [ttfts or 0]. *)
Inductive array_like : Type :=
| List (l : list (option float))
| Scalar (z : Z).

Fixpoint floats (l : list (option float)) : result (list float) :=
  match l with
  | [] => Ok []
  | Some x :: t => xs <- floats t ;; Ok (x :: xs)
  | None :: _ => Raise TypeError
  end.

Definition asarray (a : array_like) : result (list float) :=
  match a with
  | List l => floats l
  | Scalar z => Ok [float_of_int z]
  end.

(** [np.minimum] and [np.maximum] on doubles, as the reduction applies
    them to the accumulator [a] and the next element [b]: a NaN on either
    side comes out, and of two equal values (the two zeros) the later one
    is kept. *)
Definition minimum (a b : float) : float :=
  if (a <? b)%float || is_nan a then a else b.

Definition maximum (a b : float) : float :=
  if (b <? a)%float || is_nan a then a else b.

(** [np.min] / [np.max]: "zero-size array to reduction operation ... which
    has no identity" on an empty array. *)
Definition min (a : array_like) : result float :=
  xs <- asarray a ;;
  match xs with
  | [] => Raise ValueError
  | x :: t => Ok (fold_left minimum t x)
  end.

Definition max (a : array_like) : result float :=
  xs <- asarray a ;;
  match xs with
  | [] => Raise ValueError
  | x :: t => Ok (fold_left maximum t x)
  end.

(** The unrolled loop of numpy's pairwise summation: [r[j] += a[i + j]]
    for the eight running sums [r], once per block of eight elements. *)
Definition add8 (r ys : list float) : list float :=
  map (fun p => (fst p + snd p)%float) (combine r ys).

Fixpoint unrolled (blocks : nat) (r xs : list float)
    : list float * list float :=
  match blocks with
  | O => (r, xs)
  | S b => unrolled b (add8 r (firstn 8 xs)) (skipn 8 xs)
  end.

(** A block of 8 to 128 elements: eight running sums over the leading
    multiple of eight, added as a tree, then the remaining elements one by
    one. *)
Definition block_sum (xs : list float) : float :=
  let n := List.length xs in
  let '(r, rest) :=
    unrolled (Nat.div n 8 - 1) (firstn 8 xs) (skipn 8 xs) in
  match r with
  | [r0; r1; r2; r3; r4; r5; r6; r7] =>
      fold_left PrimFloat.add rest
        (((r0 + r1) + (r2 + r3)) + ((r4 + r5) + (r6 + r7)))%float
  | _ => fold_left PrimFloat.add xs 0%float
  end.

(** numpy's [pairwise_sum]: fewer than eight elements are added left to
    right, a block of at most 128 as above, and a longer array is cut at
    the multiple of eight below its middle.  [depth] bounds the number of
    cuts; the length of the array is more than enough. *)
Fixpoint pairwise_sum (depth : nat) (xs : list float) : float :=
  let n := List.length xs in
  if (n <? 8)%nat then fold_left PrimFloat.add xs 0%float
  else if (n <=? 128)%nat then block_sum xs
  else
    match depth with
    | O => fold_left PrimFloat.add xs 0%float
    | S depth' =>
        let n2 := Nat.div n 2 - Nat.modulo (Nat.div n 2) 8 in
        (pairwise_sum depth' (firstn n2 xs)
         + pairwise_sum depth' (skipn n2 xs))%float
    end.

(** [np.add.reduce] on a contiguous float64 array: the identity [0.0] plus
    the pairwise sum. *)
Definition add_reduce (xs : list float) : float :=
  (0 + pairwise_sum (List.length xs) xs)%float.

Definition mean_of (xs : list float) : float :=
  (add_reduce xs / float_of_int (len xs))%float.

(** [np.mean]: NaN (with a warning, not an exception) on an empty array. *)
Definition mean (a : array_like) : result float :=
  xs <- asarray a ;;
  Ok (mean_of xs).

Fixpoint insert (x : float) (l : list float) : list float :=
  match l with
  | [] => [x]
  | y :: t => if (x <=? y)%float then x :: l else y :: insert x t
  end.

Definition sort (xs : list float) : list float :=
  fold_right insert [] xs.

(** [np.median]: the mean of the middle element, or of the two middle
    elements, of the sorted data; NaN when a NaN is present. *)
Definition median (a : array_like) : result float :=
  xs <- asarray a ;;
  let n := len xs in
  if existsb is_nan xs then Ok nan
  else
    let s := sort xs in
    let index := (n / 2)%Z in
    let middle :=
      if Z.even n then slice s (index - 1) (index + 1)
      else slice s index (index + 1) in
    Ok (mean_of middle).

(** Floor of a finite double, as an integer. *)
Definition floor (x : float) : Z :=
  match Prim2SF x with
  | S754_finite s m e =>
      let v := if (0 <=? e)%Z then Z.shiftl (Zpos m) e
               else Z.shiftr (Zpos m) (- e) in
      if s then
        (if (0 <=? e)%Z then - v
         else - Z.shiftr (Zpos m + Z.shiftl 1 (- e) - 1) (- e))%Z
      else v
  | _ => 0%Z
  end.

Definition lerp (a b t : float) : float :=
  let diff_b_a := (b - a)%float in
  if (0.5 <=? t)%float then (b - diff_b_a * (1 - t))%float
  else (a + diff_b_a * t)%float.

(** [np.percentile] with the default method, "linear".  What numpy does
    with an empty array differs between releases; the aggregator never
    gets there, because [np.min] of the same list is evaluated first. *)
Definition percentile (a : array_like) (q : Z) : result float :=
  xs <- asarray a ;;
  match xs with
  | [] => Ok nan
  | x0 :: _ =>
      if existsb is_nan xs then Ok nan
      else
        let s := sort xs in
        let n := len xs in
        let quantile := (float_of_int q / 100)%float in
        let virtual_index := (float_of_int (n - 1) * quantile)%float in
        let previous_index := floor virtual_index in
        let next_index := Z.min (previous_index + 1) (n - 1) in
        let gamma := (virtual_index - float_of_int previous_index)%float in
        Ok (lerp (nth (Z.to_nat previous_index) s x0)
                 (nth (Z.to_nat next_index) s x0) gamma)
  end.

End np.

(** ** Data model *)

(** An element of [input_requests]: the tuple
    [(prompt, prompt_len, output_len)]. *)
Definition Request : Type := (string * Z * Z)%type.

Definition item1 (r : Request) : Z := snd (fst r).

(** Modelled from the spec: [RequestFuncInput] is declared in
    [backend_request_func], outside the sources at hand; the fields are
    those [benchmark] passes by keyword. *)
Module RequestFuncInput.
Record t : Type := Build {
  model : string;
  prompt : string;
  api_url : string;
  prompt_len : Z;
  output_len : Z;
  best_of : Z;
  use_beam_search : bool
}.
End RequestFuncInput.

(** Modelled from the spec: [RequestFuncOutput] is declared in
    [backend_request_func], outside the sources at hand.  The design
    document's RequestOutcome gives its fields: latency and ttft are a
    duration or null; the names are those the module reads. *)
Module RequestFuncOutput.
Record t : Type := Build {
  generated_text : string;
  success : bool;
  latency : option float;
  ttft : option float;
  itl : list float;
  prompt_len : Z;
  error : option string
}.
End RequestFuncOutput.

(** The tokenizer, reduced to what is read from it:
    [tokenizer(text).input_ids]. *)
Definition Tokenizer : Type := string -> list Z.

Record BenchmarkMetrics : Type := {
  completed : Z;
  successful_rate : float;
  total_input : Z;
  total_output : Z;
  request_throughput : float;
  input_throughput : float;
  output_throughput : float;

  min_ttft_ms : float;
  max_ttft_ms : float;
  mean_ttft_ms : float;
  median_ttft_ms : float;
  p90_ttft_ms : float;
  p99_ttft_ms : float;

  min_tpot_ms : float;
  max_tpot_ms : float;
  mean_tpot_ms : float;
  median_tpot_ms : float;
  p90_tpot_ms : float;
  p99_tpot_ms : float;

  min_tpr_ms : float;
  max_tpr_ms : float;
  mean_tpr_ms : float;
  median_tpr_ms : float;
  p90_tpr_ms : float;
  p99_tpr_ms : float
}.

(** ** [calculate_metrics] *)

(** The local variables of [calculate_metrics] that its loop updates. *)
Module Tally.
Record t : Type := Build {
  actual_output_lens : list Z;
  total_input : Z;
  completed : Z;
  tpots : list float;
  ttfts : list (option float);
  tprs : list (option float)
}.

Definition init : t := Build [] 0 0 [] [] [].
End Tally.

(** One turn of [for i in range(len(outputs))], on [o = outputs[i]]. *)
Definition tally_step (input_requests : list Request) (tokenizer : Tokenizer)
    (i : nat) (o : RequestFuncOutput.t) (st : Tally.t) : result Tally.t :=
  if RequestFuncOutput.success o then
    let output_len := len (tokenizer (RequestFuncOutput.generated_text o)) in
    let actual_output_lens := Tally.actual_output_lens st ++ [output_len] in
    request <- getitem input_requests i ;;
    let total_input := (Tally.total_input st + item1 request)%Z in
    tpots <-
      (if (1 <? output_len)%Z then
         d <- Py.sub (RequestFuncOutput.latency o) (RequestFuncOutput.ttft o) ;;
         tpot <- float_div_int d (output_len - 1) ;;
         Ok (Tally.tpots st ++ [tpot])
       else Ok (Tally.tpots st)) ;;
    Ok (Tally.Build actual_output_lens total_input
          (Tally.completed st + 1)%Z tpots
          (Tally.ttfts st ++ [RequestFuncOutput.ttft o])
          (Tally.tprs st ++ [RequestFuncOutput.latency o]))
  else
    Ok (Tally.Build (Tally.actual_output_lens st ++ [0%Z])
          (Tally.total_input st) (Tally.completed st) (Tally.tpots st)
          (Tally.ttfts st) (Tally.tprs st)).

(** The loop, from index [i] on, over the outcomes not yet visited. *)
Fixpoint tally_from (input_requests : list Request) (tokenizer : Tokenizer)
    (i : nat) (outputs : list RequestFuncOutput.t) (st : Tally.t)
    : result Tally.t :=
  match outputs with
  | [] => Ok st
  | o :: rest =>
      st' <- tally_step input_requests tokenizer i o st ;;
      tally_from input_requests tokenizer (S i) rest st'
  end.

(** [ttfts or 0]: an empty list is falsy. *)
Definition or_zero (l : list (option float)) : np.array_like :=
  match l with
  | [] => np.Scalar 0
  | _ :: _ => np.List l
  end.

Definition ms (x : float) : float := (x * 1000)%float.

(** The keyword arguments of [BenchmarkMetrics(...)] are evaluated in the
    order written, so the first failing one decides the exception. *)
Definition calculate_metrics (input_requests : list Request)
    (outputs : list RequestFuncOutput.t) (dur_s : float)
    (tokenizer : Tokenizer) : result (BenchmarkMetrics * list Z) :=
  st <- tally_from input_requests tokenizer 0 outputs Tally.init ;;
  let actual_output_lens := Tally.actual_output_lens st in
  let total_input := Tally.total_input st in
  let completed := Tally.completed st in
  let tpots := np.List (map Some (Tally.tpots st)) in
  let ttfts := Tally.ttfts st in
  let tprs := np.List (Tally.tprs st) in
  successful_rate <- int_truediv completed (len outputs) ;;
  request_throughput <- int_div_float completed dur_s ;;
  input_throughput <- int_div_float total_input dur_s ;;
  output_throughput <- int_div_float (Py.sum actual_output_lens) dur_s ;;
  min_ttft <- np.min (or_zero ttfts) ;;
  max_ttft <- np.max (or_zero ttfts) ;;
  mean_ttft <- np.mean (or_zero ttfts) ;;
  median_ttft <- np.median (or_zero ttfts) ;;
  p90_ttft <- np.percentile (or_zero ttfts) 90 ;;
  p99_ttft <- np.percentile (or_zero ttfts) 99 ;;
  min_tpot <- np.min tpots ;;
  max_tpot <- np.max tpots ;;
  mean_tpot <- np.mean tpots ;;
  median_tpot <- np.median tpots ;;
  p90_tpot <- np.percentile tpots 90 ;;
  p99_tpot <- np.percentile tpots 99 ;;
  min_tpr <- np.min tprs ;;
  max_tpr <- np.max tprs ;;
  mean_tpr <- np.mean tprs ;;
  median_tpr <- np.median tprs ;;
  p90_tpr <- np.percentile tprs 90 ;;
  p99_tpr <- np.percentile tprs 99 ;;
  Ok ({| completed := completed;
         successful_rate := successful_rate;
         total_input := total_input;
         total_output := Py.sum actual_output_lens;
         request_throughput := request_throughput;
         input_throughput := input_throughput;
         output_throughput := output_throughput;
         min_ttft_ms := ms min_ttft;
         max_ttft_ms := ms max_ttft;
         mean_ttft_ms := ms mean_ttft;
         median_ttft_ms := ms median_ttft;
         p90_ttft_ms := ms p90_ttft;
         p99_ttft_ms := ms p99_ttft;
         min_tpot_ms := ms min_tpot;
         max_tpot_ms := ms max_tpot;
         mean_tpot_ms := ms mean_tpot;
         median_tpot_ms := ms median_tpot;
         p90_tpot_ms := ms p90_tpot;
         p99_tpot_ms := ms p99_tpot;
         min_tpr_ms := ms min_tpr;
         max_tpr_ms := ms max_tpr;
         mean_tpr_ms := ms mean_tpr;
         median_tpr_ms := ms median_tpr;
         p90_tpr_ms := ms p90_tpr;
         p99_tpr_ms := ms p99_tpr |},
      actual_output_lens).

(** [dump_metrics_and_results]: the dictionary it returns (the CSV line it
    prints is not modelled). *)
Module Report.
Record t : Type := Build {
  duration : float;
  completed : Z;
  total_input_tokens : Z;
  total_output_tokens : Z;
  request_throughput : float;
  input_throughput : float;
  output_throughput : float;
  mean_ttft_ms : float;
  median_ttft_ms : float;
  p99_ttft_ms : float;
  mean_tpot_ms : float;
  median_tpot_ms : float;
  p99_tpot_ms : float;
  input_lens : list Z;
  output_lens : list Z;
  ttfts : list (option float);
  itls : list (list float);
  generated_texts : list string;
  errors : list (option string)
}.
End Report.

Definition dump_metrics_and_results (metrics : BenchmarkMetrics)
    (actual_output_lens : list Z) (outputs : list RequestFuncOutput.t)
    (benchmark_duration : float) : Report.t :=
  {| Report.duration := benchmark_duration;
     Report.completed := completed metrics;
     Report.total_input_tokens := total_input metrics;
     Report.total_output_tokens := total_output metrics;
     Report.request_throughput := request_throughput metrics;
     Report.input_throughput := input_throughput metrics;
     Report.output_throughput := output_throughput metrics;
     Report.mean_ttft_ms := mean_ttft_ms metrics;
     Report.median_ttft_ms := median_ttft_ms metrics;
     Report.p99_ttft_ms := p99_ttft_ms metrics;
     Report.mean_tpot_ms := mean_tpot_ms metrics;
     Report.median_tpot_ms := median_tpot_ms metrics;
     Report.p99_tpot_ms := p99_tpot_ms metrics;
     Report.input_lens := map RequestFuncOutput.prompt_len outputs;
     Report.output_lens := actual_output_lens;
     Report.ttfts := map RequestFuncOutput.ttft outputs;
     Report.itls := map RequestFuncOutput.itl outputs;
     Report.generated_texts := map RequestFuncOutput.generated_text outputs;
     Report.errors := map RequestFuncOutput.error outputs |}.

(** ** The world one thread of execution runs in

    Clock readings, random draws, sleeps and backend calls are answers of
    the environment.  [Env.t] fixes the answers one thread gets during one
    run, indexed by how many calls of that kind the thread has made;
    [World.t] counts the calls and logs what was released to the outside. *)

Module Env.
(** A request function of [backend_request_func]; the first argument is
    the number of calls made before this one. *)
Definition request_func : Type :=
  nat -> RequestFuncInput.t -> RequestFuncOutput.t.

Record t : Type := Build {
  (** the n-th reading of [time.perf_counter()] *)
  perf_counter : nat -> float;
  (** the n-th call [np.random.exponential(scale)] *)
  exponential : nat -> float -> result float;
  (** [time.sleep(secs)] *)
  sleep : float -> result unit;
  (** [asyncio.sleep(delay)] *)
  asyncio_sleep : float -> result unit;
  (** the tables imported from [backend_request_func] *)
  REQUEST_FUNCS : string -> option request_func;
  ASYNC_REQUEST_FUNCS : string -> option request_func
}.
End Env.

Module World.
Inductive event : Type :=
| Slept (secs : float)
| Sent (request_func_input : RequestFuncInput.t).

Record t : Type := Build {
  clock_reads : nat;
  draws : nat;
  calls : nat;
  log : list event
}.

Definition init : t := Build 0 0 0 [].

Fixpoint sent (l : list event) : list RequestFuncInput.t :=
  match l with
  | [] => []
  | Sent i :: t => i :: sent t
  | Slept _ :: t => sent t
  end.
End World.

(** Computations of one thread: they may raise and they change the world. *)
Module IO.
Definition t (A : Type) : Type := World.t -> result A * World.t.

Definition ret {A : Type} (a : A) : t A := fun w => (Ok a, w).

Definition bind {A B : Type} (m : t A) (k : A -> t B) : t B :=
  fun w =>
    match m w with
    | (Ok a, w') => k a w'
    | (Raise e, w') => (Raise e, w')
    end.

Definition lift {A : Type} (r : result A) : t A := fun w => (r, w).

Definition perf_counter (env : Env.t) : t float :=
  fun w =>
    (Ok (Env.perf_counter env (World.clock_reads w)),
     World.Build (S (World.clock_reads w)) (World.draws w) (World.calls w)
       (World.log w)).

Definition exponential (env : Env.t) (scale : float) : t float :=
  fun w =>
    (Env.exponential env (World.draws w) scale,
     World.Build (World.clock_reads w) (S (World.draws w)) (World.calls w)
       (World.log w)).

Definition logged (e : World.event) (r : result unit) : t unit :=
  fun w =>
    (r, World.Build (World.clock_reads w) (World.draws w) (World.calls w)
          (World.log w ++ [e])).

Definition sleep (env : Env.t) (secs : float) : t unit :=
  logged (World.Slept secs) (Env.sleep env secs).

Definition asyncio_sleep (env : Env.t) (delay : float) : t unit :=
  logged (World.Slept delay) (Env.asyncio_sleep env delay).

(** A call of a request function, which returns the outcome. *)
Definition call (f : Env.request_func) (i : RequestFuncInput.t)
    : t RequestFuncOutput.t :=
  fun w =>
    (Ok (f (World.calls w) i),
     World.Build (World.clock_reads w) (World.draws w) (S (World.calls w))
       (World.log w ++ [World.Sent i])).

(** [asyncio.create_task] on a call of a request function: the call is
    under way, its outcome is collected later. *)
Definition create_task (f : Env.request_func) (i : RequestFuncInput.t)
    : t (unit -> RequestFuncOutput.t) :=
  fun w =>
    (Ok (fun _ => f (World.calls w) i),
     World.Build (World.clock_reads w) (World.draws w) (S (World.calls w))
       (World.log w ++ [World.Sent i])).
End IO.

Declare Scope io_scope.
Delimit Scope io_scope with io.
Notation "x <- m ;; k" := (IO.bind m (fun x => k))
  (at level 61, m at next level, right associativity) : io_scope.

(** ** Generators and the [for] loop

    A generator over a finite list is the list of what it yields, each item
    paired with the code that runs when the consumer asks for the next one
    (the statements between this [yield] and the next).  A [break] in the
    consumer leaves the generator suspended: its pending code never runs. *)

Definition Generator (A : Type) : Type := list (A * IO.t unit).

Inductive control (S : Type) : Type :=
| Continue (s : S)
| Break (s : S).

Arguments Continue {S} s.
Arguments Break {S} s.

Fixpoint for_each {A S : Type} (g : Generator A)
    (body : A -> S -> IO.t (control S)) (s : S) : IO.t S :=
  match g with
  | [] => IO.ret s
  | (a, resume) :: g' =>
      (c <- body a s ;;
       match c with
       | Break s' => IO.ret s'
       | Continue s' => _ <- resume ;; for_each g' body s'
       end)%io
  end.

(** [[request for request in g]]: the generator run to exhaustion. *)
Definition exhaust {A : Type} (g : Generator A) : IO.t (list A) :=
  for_each g (fun a acc => IO.ret (Continue (acc ++ [a]))) [].

(** ** [get_request] and [get_request_async] *)

(** What [get_request] runs after a [yield], up to the next one. *)
Definition after_yield (env : Env.t) (request_rate : float) : IO.t unit :=
  if (request_rate =? infinity)%float then IO.ret tt
  else
    (scale <- IO.lift (float_div 1 request_rate) ;;
     interval <- IO.exponential env scale ;;
     IO.sleep env interval)%io.

Definition get_request (env : Env.t) (input_requests : list Request)
    (request_rate : float) : Generator Request :=
  map (fun request => (request, after_yield env request_rate)) input_requests.

Definition after_yield_async (env : Env.t) (request_rate : float)
    : IO.t unit :=
  if (request_rate =? infinity)%float then IO.ret tt
  else
    (scale <- IO.lift (float_div 1 request_rate) ;;
     interval <- IO.exponential env scale ;;
     IO.asyncio_sleep env interval)%io.

Definition get_request_async (env : Env.t) (input_requests : list Request)
    (request_rate : float) : Generator Request :=
  map (fun request => (request, after_yield_async env request_rate))
    input_requests.

(** ** [benchmark_async] and [benchmark] *)

Definition make_input (model_id api_url : string) (best_of : Z)
    (use_beam_search : bool) (request : Request) : RequestFuncInput.t :=
  let '(prompt, prompt_len, output_len) := request in
  {| RequestFuncInput.model := model_id;
     RequestFuncInput.prompt := prompt;
     RequestFuncInput.api_url := api_url;
     RequestFuncInput.prompt_len := prompt_len;
     RequestFuncInput.output_len := output_len;
     RequestFuncInput.best_of := best_of;
     RequestFuncInput.use_beam_search := use_beam_search |}.

(** [await asyncio.gather] over the tasks: the outcomes, in the order of
    the tasks. *)
Definition gather (tasks : list (unit -> RequestFuncOutput.t))
    : list RequestFuncOutput.t :=
  map (fun task => task tt) tasks.

Definition benchmark_async (env : Env.t) (backend api_url model_id : string)
    (tokenizer : Tokenizer) (input_requests : list Request) (best_of : Z)
    (use_beam_search : bool) (request_rate : float) : IO.t Report.t :=
  (request_func <-
     IO.lift match Env.ASYNC_REQUEST_FUNCS env backend with
             | Some f => Ok f
             | None => Raise ValueError
             end ;;
   benchmark_start_time <- IO.perf_counter env ;;
   tasks <-
     for_each (get_request_async env input_requests request_rate)
       (fun request tasks =>
          task <- IO.create_task request_func
                    (make_input model_id api_url best_of use_beam_search
                       request) ;;
          IO.ret (Continue (tasks ++ [task])))
       [] ;;
   let outputs := gather tasks in
   now <- IO.perf_counter env ;;
   let benchmark_duration := (now - benchmark_start_time)%float in
   r <- IO.lift (calculate_metrics input_requests outputs benchmark_duration
                   tokenizer) ;;
   IO.ret (dump_metrics_and_results (fst r) (snd r) outputs
             benchmark_duration))%io.

(** What [benchmark] returns: the report when [thread_id == -1], the raw
    outcomes otherwise. *)
Inductive benchmark_result : Type :=
| Reported (r : Report.t)
| Outputs (outputs : list RequestFuncOutput.t).

(** The body of the [for] loop of [benchmark]; [thread_stop_time] is the
    global [args.thread_stop_time]. *)
Definition benchmark_body (env : Env.t) (thread_stop_time : float)
    (request_func : Env.request_func) (model_id api_url : string)
    (best_of : Z) (use_beam_search : bool) (benchmark_start_time : float)
    (request : Request) (outputs : list RequestFuncOutput.t)
    : IO.t (control (list RequestFuncOutput.t)) :=
  (stop <-
     (if (0 <? thread_stop_time)%float then
        now <- IO.perf_counter env ;;
        IO.ret (thread_stop_time <=? now - benchmark_start_time)%float
      else IO.ret false) ;;
   if stop then IO.ret (Break outputs)
   else
     o <- IO.call request_func
            (make_input model_id api_url best_of use_beam_search request) ;;
     IO.ret (Continue (outputs ++ [o])))%io.

Definition benchmark (env : Env.t) (thread_stop_time : float)
    (backend api_url model_id : string) (tokenizer : Tokenizer)
    (input_requests : list Request) (best_of : Z) (use_beam_search : bool)
    (request_rate : float) (thread_id : Z) : IO.t benchmark_result :=
  (request_func <-
     IO.lift match Env.REQUEST_FUNCS env backend with
             | Some f => Ok f
             | None => Raise ValueError
             end ;;
   benchmark_start_time <- IO.perf_counter env ;;
   outputs <-
     for_each (get_request env input_requests request_rate)
       (benchmark_body env thread_stop_time request_func model_id api_url
          best_of use_beam_search benchmark_start_time)
       [] ;;
   if (thread_id =? -1)%Z then
     now <- IO.perf_counter env ;;
     let benchmark_duration := (now - benchmark_start_time)%float in
     r <- IO.lift (calculate_metrics input_requests outputs
                     benchmark_duration tokenizer) ;;
     IO.ret (Reported (dump_metrics_and_results (fst r) (snd r) outputs
                         benchmark_duration))
   else IO.ret (Outputs outputs))%io.

(** ** [benchThread] *)

(** [benchThread.run]: the ramp-up sleep, then [benchmark] on the thread's
    own requests; the value is what ends up in [self.outputs]. *)
Definition benchThread_run (env : Env.t) (thread_stop_time : float)
    (thread_id : Z) (ramp_up_time : float) (backend api_url model_id : string)
    (tokenizer : Tokenizer) (input_requests : list Request) (best_of : Z)
    (use_beam_search : bool) (request_rate : float) : IO.t benchmark_result :=
  (_ <- IO.sleep env ramp_up_time ;;
   benchmark env thread_stop_time backend api_url model_id tokenizer
     input_requests best_of use_beam_search request_rate thread_id)%io.

(** [benchThread.get_result], after the thread has run in a world of its
    own: when [run] died of an exception [self.outputs] was never assigned
    and reading it raises [AttributeError].  The report variant belongs to
    [thread_id == -1], which [main] never passes. *)
Definition benchThread_get_result (run : IO.t benchmark_result)
    : result (list RequestFuncOutput.t) :=
  match fst (run World.init) with
  | Ok (Outputs outputs) => Ok outputs
  | Ok (Reported _) => Raise TypeError
  | Raise _ => Raise AttributeError
  end.

(** ** [main], from the point where [input_requests] has been sampled *)

Module Args.
Record t : Type := Build {
  backend : string;
  model : string;
  best_of : Z;
  use_beam_search : bool;
  num_prompts : Z;
  request_rate : float;
  enable_async : bool;
  num_threads : Z;
  ramp_up_time : float;
  thread_stop_time : float
}.
End Args.

(** The requests handed to thread [i]:
    [input_requests[i * args.num_prompts:(i + 1) * args.num_prompts]]. *)
Definition thread_requests (args : Args.t) (input_requests : list Request)
    (i : nat) : list Request :=
  slice input_requests (Z.of_nat i * Args.num_prompts args)
    ((Z.of_nat i + 1) * Args.num_prompts args).

(** The start offset of thread [i]:
    [i * args.ramp_up_time / args.num_threads]. *)
Definition thread_ramp_up (args : Args.t) (i : nat) : result float :=
  float_div_int (float_of_int (Z.of_nat i) * Args.ramp_up_time args)%float
    (Args.num_threads args).

(** Thread [i] of [main], in the environment [env] it runs in. *)
Definition thread_run (env : Env.t) (args : Args.t) (api_url : string)
    (tokenizer : Tokenizer) (input_requests : list Request) (i : nat)
    (ramp_up_time : float) : IO.t benchmark_result :=
  benchThread_run env (Args.thread_stop_time args) (Z.of_nat i) ramp_up_time
    (Args.backend args) api_url (Args.model args) tokenizer
    (thread_requests args input_requests i) (Args.best_of args)
    (Args.use_beam_search args) (Args.request_rate args).

(** The first loop of the threaded branch: one [benchThread] per index. *)
Fixpoint start_threads (workers : nat -> Env.t) (args : Args.t)
    (api_url : string) (tokenizer : Tokenizer)
    (input_requests : list Request) (ids : list nat)
    : result (list (IO.t benchmark_result)) :=
  match ids with
  | [] => Ok []
  | i :: rest =>
      ramp_up_time <- thread_ramp_up args i ;;
      threads <- start_threads workers args api_url tokenizer input_requests
                   rest ;;
      Ok (thread_run (workers i) args api_url tokenizer input_requests i
            ramp_up_time :: threads)
  end.

(** The last loop: [all_outputs += thread.get_result()], thread by thread. *)
Fixpoint join_outputs (threads : list (IO.t benchmark_result))
    (all_outputs : list RequestFuncOutput.t)
    : result (list RequestFuncOutput.t) :=
  match threads with
  | [] => Ok all_outputs
  | thread :: rest =>
      outputs <- benchThread_get_result thread ;;
      join_outputs rest (all_outputs ++ outputs)
  end.

(** The threaded branch up to the concatenation of the outcomes. *)
Definition run_threads (workers : nat -> Env.t) (args : Args.t)
    (api_url : string) (tokenizer : Tokenizer)
    (input_requests : list Request) : result (list RequestFuncOutput.t) :=
  threads <- start_threads workers args api_url tokenizer input_requests
               (seq 0 (Z.to_nat (Args.num_threads args))) ;;
  join_outputs threads [].

(** [host] answers the main thread, [workers i] answers thread [i]. *)
Definition main (host : Env.t) (workers : nat -> Env.t) (args : Args.t)
    (api_url : string) (tokenizer : Tokenizer)
    (input_requests : list Request) : result Report.t :=
  if (Args.num_threads args <=? 0)%Z then Raise AssertionError
  else if Args.enable_async args then
    fst (benchmark_async host (Args.backend args) api_url (Args.model args)
           tokenizer input_requests (Args.best_of args)
           (Args.use_beam_search args) (Args.request_rate args) World.init)
  else
    let benchmark_start_time := Env.perf_counter host 0 in
    all_outputs <- run_threads workers args api_url tokenizer
                     input_requests ;;
    let benchmark_duration :=
      (Env.perf_counter host 1 - benchmark_start_time)%float in
    r <- calculate_metrics input_requests all_outputs benchmark_duration
           tokenizer ;;
    Ok (dump_metrics_and_results (fst r) (snd r) all_outputs
          benchmark_duration).

(** ** Vocabulary of the statements *)

Definition output_len_of (tokenizer : Tokenizer) (o : RequestFuncOutput.t)
    : Z :=
  len (tokenizer (RequestFuncOutput.generated_text o)).

(** The outcome gives a TPOT sample: it succeeded with more than one
    token. *)
Definition samples_tpot (tokenizer : Tokenizer) (o : RequestFuncOutput.t)
    : bool :=
  RequestFuncOutput.success o && (1 <? output_len_of tokenizer o)%Z.

(** [(latency - ttft) / (output_len - 1)] of an outcome, when it carries
    both timings. *)
Definition tpot_of (tokenizer : Tokenizer) (o : RequestFuncOutput.t)
    : option float :=
  match RequestFuncOutput.latency o, RequestFuncOutput.ttft o with
  | Some latency, Some ttft =>
      Some ((latency - ttft)
            / float_of_int (output_len_of tokenizer o - 1))%float
  | _, _ => None
  end.

(** A successful outcome carries its latency and its time to first token
    (the invariant of the outcome record). *)
Definition timed (o : RequestFuncOutput.t) : Prop :=
  RequestFuncOutput.success o = true ->
  exists latency ttft,
    RequestFuncOutput.latency o = Some latency /\
    RequestFuncOutput.ttft o = Some ttft.

(** The wait between two releases never fails in this environment. *)
Definition paces (env : Env.t) (request_rate : float) : Prop :=
  forall w, fst (after_yield env request_rate w) = Ok tt.

Definition paces_async (env : Env.t) (request_rate : float) : Prop :=
  forall w, fst (after_yield_async env request_rate w) = Ok tt.

(** The answers of a request function to a list of inputs sent one after
    the other, the first of them being call number [c]. *)
Fixpoint answers (f : Env.request_func) (c : nat)
    (inputs : list RequestFuncInput.t) : list RequestFuncOutput.t :=
  match inputs with
  | [] => []
  | i :: rest => f c i :: answers f (S c) rest
  end.

(** Of [n] release points, how many come before the first one at which the
    elapsed time has reached the stop time; the check at a release point is
    reading number [read] of the thread's clock. *)
Fixpoint in_time (env : Env.t) (thread_stop_time start : float)
    (read n : nat) : nat :=
  match n with
  | 0 => 0
  | S n' =>
      if (thread_stop_time <=? Env.perf_counter env read - start)%float
      then 0
      else S (in_time env thread_stop_time start (S read) n')
  end.

(** How many of [n] requests a thread sends: all of them without a stop
    time, otherwise those released before it expired. *)
Definition dispatched (env : Env.t) (thread_stop_time : float) (n : nat)
    : nat :=
  if (0 <? thread_stop_time)%float
  then in_time env thread_stop_time (Env.perf_counter env 0) 1 n
  else n.

(** The value of [i * args.ramp_up_time / args.num_threads]. *)
Definition ramp_up_of (args : Args.t) (i : nat) : float :=
  (float_of_int (Z.of_nat i) * Args.ramp_up_time args
   / float_of_int (Args.num_threads args))%float.

(** ** Concrete runs *)

Module Scenario.

Definition five_tokens : Tokenizer := fun _ => [1; 2; 3; 4; 5]%Z.

(** One token per character: the empty text has no token. *)
Definition per_char : Tokenizer :=
  fun text => repeat 0%Z (String.length text).

Definition succeeded (text : string) (latency ttft : float) (prompt_len : Z)
    : RequestFuncOutput.t :=
  RequestFuncOutput.Build text true (Some latency) (Some ttft) []
    prompt_len None.

Definition failed (prompt_len : Z) : RequestFuncOutput.t :=
  RequestFuncOutput.Build EmptyString false None None [] prompt_len
    (Some "Connection refused"%string).

(** Four requests, all answered. *)
Definition requests : list Request :=
  [("p0"%string, 10, 5); ("p1"%string, 20, 5); ("p2"%string, 10, 5);
   ("p3"%string, 30, 5)]%Z.

Definition outcomes : list RequestFuncOutput.t :=
  [succeeded "a b c d e" 1 0.1 10; succeeded "a b c d e" 2 0.2 20;
   succeeded "a b c d e" 1 0.1 10; succeeded "a b c d e" 2 0.2 30].

(** The server is down: every request fails. *)
Definition all_failed : list RequestFuncOutput.t :=
  [failed 10; failed 20; failed 10].

(** One answer of a single token next to a failure. *)
Definition single_token : list RequestFuncOutput.t :=
  [succeeded "a" 1 0.1 10; failed 20].

(** Seven answers and three failures. *)
Definition ten_requests : list Request :=
  repeat ("p"%string, 10, 5)%Z 10.

Definition seven_of_ten : list RequestFuncOutput.t :=
  repeat (succeeded "a b c d e" 1 0.1 10) 7 ++ repeat (failed 10) 3.

(** A backend that answers every request in one second and copies the
    prompt length into the outcome. *)
Definition echo : Env.request_func :=
  fun _ i =>
    succeeded "a b c d e" 1 0.5 (RequestFuncInput.prompt_len i).

(** An environment with the given clock in which nothing fails; a draw
    returns its scale. *)
Definition quiet (clock : nat -> float) : Env.t :=
  Env.Build clock (fun _ scale => Ok scale) (fun _ => Ok tt)
    (fun _ => Ok tt) (fun _ => Some echo) (fun _ => Some echo).

(** A clock that advances one second per reading. *)
Definition ticking : nat -> float := fun n => float_of_int (Z.of_nat n).

(** Two threads of two requests each with a stop time of three seconds;
    thread 0 finds five seconds elapsed at its second release point. *)
Definition pool : list Request :=
  [("p0"%string, 10, 5); ("p1"%string, 20, 5); ("p2"%string, 30, 5);
   ("p3"%string, 40, 5)]%Z.

Definition args : Args.t :=
  Args.Build "vllm" "m" 1 false 2 infinity false 2 0 3.

Definition workers (i : nat) : Env.t :=
  quiet (fun n => match i, n with
                  | 0, 2 => 5%float
                  | _, _ => ticking n
                  end).

Definition host : Env.t := quiet ticking.

End Scenario.

(** ** [sample_sharegpt_requests] *)

(** A record of the dataset file, reduced to what is read from it: the
    ["value"] of each turn of [data["conversations"]], in order. *)
Definition Conversation : Type := list string.

(** What the first and the second list comprehension leave of the dataset:
    the first two turns of every conversation that has at least two. *)
Definition first_two_turns (dataset : list Conversation)
    : list (string * string) :=
  map (fun data => (nth 0 data EmptyString, nth 1 data EmptyString))
    (filter (fun data => (2 <=? len data)%Z) dataset).

(** The loop over the shuffled pairs, [filtered_dataset] being what was
    kept so far. *)
Fixpoint sharegpt_filter (tokenizer : Tokenizer) (num_requests : Z)
    (fixed_output_len : option Z) (dataset : list (string * string))
    (filtered_dataset : list Request) : list Request :=
  match dataset with
  | [] => filtered_dataset
  | (prompt, completion) :: rest =>
      if (len filtered_dataset =? num_requests)%Z then filtered_dataset
      else
        let prompt_len := len (tokenizer prompt) in
        let output_len :=
          match fixed_output_len with
          | None => len (tokenizer completion)
          | Some n => n
          end in
        if (prompt_len <? 4)%Z || (output_len <? 4)%Z then
          sharegpt_filter tokenizer num_requests fixed_output_len rest
            filtered_dataset
        else if (1024 <? prompt_len)%Z || (2048 <? prompt_len + output_len)%Z
        then
          sharegpt_filter tokenizer num_requests fixed_output_len rest
            filtered_dataset
        else
          sharegpt_filter tokenizer num_requests fixed_output_len rest
            (filtered_dataset ++ [(prompt, prompt_len, output_len)])
  end.

(** [dataset] is the content of the file at [dataset_path]; [shuffle] is
    what [random.shuffle] makes of a list in this run. *)
Definition sample_sharegpt_requests
    (shuffle : list (string * string) -> list (string * string))
    (dataset : list Conversation) (num_requests : Z) (tokenizer : Tokenizer)
    (fixed_output_len : option Z) : result (list Request) :=
  if match fixed_output_len with
     | Some n => (n <? 4)%Z
     | None => false
     end
  then Raise ValueError
  else
    Ok (sharegpt_filter tokenizer num_requests fixed_output_len
          (shuffle (first_two_turns dataset)) []).

(** ** The record [main] saves

    Text is taken to be ASCII.  The name of the output file formats a float
    and is left out, as is the writing of the file. *)

From Stdlib Require Import Ascii.

Set Warnings "-register-all".

Module Json.
Inductive t : Type :=
| Str (s : string)
| Int (z : Z)
| Float (f : float)
| Bool (b : bool)
| Null
| List (l : list t).
End Json.

(** A [dict] with string keys, in insertion order. *)
Definition dict : Type := list (string * Json.t).

(** [d.get(key)]. *)
Fixpoint dict_get (d : dict) (key : string) : option Json.t :=
  match d with
  | [] => None
  | (k, v) :: rest => if String.eqb k key then Some v else dict_get rest key
  end.

(** [d[key] = value]: a key that is present keeps its place. *)
Fixpoint dict_set (d : dict) (key : string) (value : Json.t) : dict :=
  match d with
  | [] => [(key, value)]
  | (k, v) :: rest =>
      if String.eqb k key then (key, value) :: rest
      else (k, v) :: dict_set rest key value
  end.

(** [{**d, **other}]. *)
Definition dict_merge (d other : dict) : dict :=
  fold_left (fun acc kv => dict_set acc (fst kv) (snd kv)) other d.

(** [sep in s] for a separator of one character. *)
Fixpoint contains (sep : Ascii.ascii) (s : string) : bool :=
  match s with
  | EmptyString => false
  | String c rest => Ascii.eqb c sep || contains sep rest
  end.

(** [s.split(sep)] for a separator of one character. *)
Fixpoint split (sep : Ascii.ascii) (s : string) : list string :=
  match s with
  | EmptyString => [EmptyString]
  | String c rest =>
      if Ascii.eqb c sep then EmptyString :: split sep rest
      else
        match split sep rest with
        | [] => [String c EmptyString]
        | head :: tail => String c head :: tail
        end
  end.

(** Text is held as bytes, so a character beyond ASCII is several of them.
    [is_ascii] tells the texts on which a character is a byte. *)
Fixpoint is_ascii (s : string) : bool :=
  match s with
  | EmptyString => true
  | String c rest => (Ascii.nat_of_ascii c <? 128)%nat && is_ascii rest
  end.

(** [str.isspace] on an ASCII character: tab to carriage return, the four
    separators 28 to 31, and the space.  Python also strips the white space
    beyond ASCII (U+0085, U+00A0, U+2000 and the like), which [lstrip],
    [rstrip] and [strip] below leave in place: they stand for the code on
    ASCII text. *)
Definition isspace (c : Ascii.ascii) : bool :=
  let n := Ascii.nat_of_ascii c in
  ((9 <=? n) && (n <=? 13) || (28 <=? n) && (n <=? 32))%nat.

Fixpoint lstrip (s : string) : string :=
  match s with
  | EmptyString => EmptyString
  | String c rest => if isspace c then lstrip rest else s
  end.

Fixpoint rstrip (s : string) : string :=
  match s with
  | EmptyString => EmptyString
  | String c rest =>
      match rstrip rest with
      | EmptyString => if isspace c then EmptyString
                       else String c EmptyString
      | kept => String c kept
      end
  end.

(** [s.strip()]. *)
Definition strip (s : string) : string := rstrip (lstrip s).

(** The body of [for item in args.metadata]. *)
Definition add_metadata (result_json : dict) (item : string) : result dict :=
  if contains "="%char item then
    let kvstring := split "="%char item in
    key <- getitem kvstring 0 ;;
    value <- getitem kvstring 1 ;;
    Ok (dict_set result_json (strip key) (Json.Str (strip value)))
  else Raise ValueError.

Fixpoint add_all_metadata (result_json : dict) (metadata : list string)
    : result dict :=
  match metadata with
  | [] => Ok result_json
  | item :: rest =>
      result_json' <- add_metadata result_json item ;;
      add_all_metadata result_json' rest
  end.

Definition json_option_float (x : option float) : Json.t :=
  match x with
  | Some f => Json.Float f
  | None => Json.Null
  end.

Definition json_option_string (x : option string) : Json.t :=
  match x with
  | Some s => Json.Str s
  | None => Json.Null
  end.

(** The dictionary [dump_metrics_and_results] returns, key by key in the
    order written. *)
Definition report_items (r : Report.t) : dict :=
  [("duration"%string, Json.Float (Report.duration r));
   ("completed"%string, Json.Int (Report.completed r));
   ("total_input_tokens"%string, Json.Int (Report.total_input_tokens r));
   ("total_output_tokens"%string, Json.Int (Report.total_output_tokens r));
   ("request_throughput"%string, Json.Float (Report.request_throughput r));
   ("input_throughput"%string, Json.Float (Report.input_throughput r));
   ("output_throughput"%string, Json.Float (Report.output_throughput r));
   ("mean_ttft_ms"%string, Json.Float (Report.mean_ttft_ms r));
   ("median_ttft_ms"%string, Json.Float (Report.median_ttft_ms r));
   ("p99_ttft_ms"%string, Json.Float (Report.p99_ttft_ms r));
   ("mean_tpot_ms"%string, Json.Float (Report.mean_tpot_ms r));
   ("median_tpot_ms"%string, Json.Float (Report.median_tpot_ms r));
   ("p99_tpot_ms"%string, Json.Float (Report.p99_tpot_ms r));
   ("input_lens"%string, Json.List (map Json.Int (Report.input_lens r)));
   ("output_lens"%string, Json.List (map Json.Int (Report.output_lens r)));
   ("ttfts"%string, Json.List (map json_option_float (Report.ttfts r)));
   ("itls"%string,
    Json.List (map (fun l => Json.List (map Json.Float l)) (Report.itls r)));
   ("generated_texts"%string,
    Json.List (map Json.Str (Report.generated_texts r)));
   ("errors"%string, Json.List (map json_option_string (Report.errors r)))].

(** The options of the command line that only the saving of the result
    reads. *)
Module SaveArgs.
Record t : Type := Build {
  tokenizer : option string;
  save_result : bool;
  metadata : option (list string)
}.
End SaveArgs.

(** [result_json] as [main] builds it under [if args.save_result], up to the
    merge with the benchmark result; [current_dt] is the formatted time of
    day.  [None] when nothing is saved. *)
Definition result_record (args : Args.t) (save : SaveArgs.t)
    (current_dt : string) (benchmark_result : Report.t)
    : result (option dict) :=
  if SaveArgs.save_result save then
    let tokenizer_id :=
      match SaveArgs.tokenizer save with
      | Some t => t
      | None => Args.model args
      end in
    let result_json : dict := [] in
    let result_json := dict_set result_json "date" (Json.Str current_dt) in
    let result_json :=
      dict_set result_json "backend" (Json.Str (Args.backend args)) in
    let result_json :=
      dict_set result_json "model_id" (Json.Str (Args.model args)) in
    let result_json :=
      dict_set result_json "tokenizer_id" (Json.Str tokenizer_id) in
    let result_json :=
      dict_set result_json "best_of" (Json.Int (Args.best_of args)) in
    let result_json :=
      dict_set result_json "use_beam_search"
        (Json.Bool (Args.use_beam_search args)) in
    let result_json :=
      dict_set result_json "num_prompts" (Json.Int (Args.num_prompts args)) in
    result_json <-
      match SaveArgs.metadata save with
      | Some (item :: rest) => add_all_metadata result_json (item :: rest)
      | _ => Ok result_json
      end ;;
    let result_json :=
      dict_set result_json "request_rate"
        (if (Args.request_rate args <? infinity)%float
         then Json.Float (Args.request_rate args)
         else Json.Str "inf") in
    Ok (Some (dict_merge result_json (report_items benchmark_result)))
  else Ok None.

(** ** Further vocabulary *)

(** An [int] that [float] converts without [OverflowError]. *)
Definition fits_double (z : Z) : Prop := (Z.abs z < 2 ^ 1024 - 2 ^ 970)%Z.

(** Sizes as a machine holds them: the number of outcomes, the prompt
    lengths of the pool and the token counts of the answers are below
    [2^63], the prompt lengths not negative. *)
Definition within_double_range (input_requests : list Request)
    (outputs : list RequestFuncOutput.t) (tokenizer : Tokenizer) : Prop :=
  (len outputs < 2 ^ 63)%Z /\
  (forall r, In r input_requests -> (0 <= item1 r < 2 ^ 63)%Z) /\
  (forall o, In o outputs -> (output_len_of tokenizer o < 2 ^ 63)%Z).

(** The sleeps a log records, in order. *)
Fixpoint sleeps (l : list World.event) : list float :=
  match l with
  | [] => []
  | World.Slept secs :: t => secs :: sleeps t
  | World.Sent _ :: t => sleeps t
  end.

(** What the filter of [sample_sharegpt_requests] makes of one pair: the
    request, if its lengths are within bounds. *)
Definition sharegpt_request (tokenizer : Tokenizer)
    (fixed_output_len : option Z) (turns : string * string)
    : option Request :=
  let prompt_len := len (tokenizer (fst turns)) in
  let output_len :=
    match fixed_output_len with
    | None => len (tokenizer (snd turns))
    | Some n => n
    end in
  if (4 <=? prompt_len)%Z && (4 <=? output_len)%Z
     && (prompt_len <=? 1024)%Z && (prompt_len + output_len <=? 2048)%Z
  then Some (fst turns, prompt_len, output_len)
  else None.

(** All the requests within bounds, in the order of the pairs. *)
Fixpoint sharegpt_kept (tokenizer : Tokenizer) (fixed_output_len : option Z)
    (dataset : list (string * string)) : list Request :=
  match dataset with
  | [] => []
  | turns :: rest =>
      match sharegpt_request tokenizer fixed_output_len turns with
      | Some request =>
          request :: sharegpt_kept tokenizer fixed_output_len rest
      | None => sharegpt_kept tokenizer fixed_output_len rest
      end
  end.

(** The entry of [actual_output_lens] for an outcome. *)
Definition output_len_entry (tokenizer : Tokenizer) (o : RequestFuncOutput.t)
    : Z :=
  if RequestFuncOutput.success o then output_len_of tokenizer o else 0%Z.

(** ** Further concrete runs *)

Module Cases.

(** A tokenizer with one token per character. *)
Definition tokens : Tokenizer := Scenario.per_char.

Definition dataset : list Conversation :=
  ["abcd"; "wxyz"; "more"]%string
  :: ["ab"; "wxyz"]%string
  :: ["only one turn"]%string
  :: ["hello"; "world"]%string
  :: ["abcde"; "xyz"]%string
  :: ["good day"; "to you"]%string
  :: nil.

Definition no_shuffle : list (string * string) -> list (string * string) :=
  fun l => l.

(** A backend table without any entry. *)
Definition unplugged (clock : nat -> float) : Env.t :=
  Env.Build clock (fun _ scale => Ok scale) (fun _ => Ok tt)
    (fun _ => Ok tt) (fun _ => None) (fun _ => None).

Definition save : SaveArgs.t :=
  SaveArgs.Build None true
    (Some ["version = 0.3.3 = rc1"; "duration=1"; "backend=mine"]%string).

Definition report : Report.t :=
  Report.Build 2 4 70 20 2 35 10 150 150 200 337.5 337.5 450
    [10; 20; 10; 30]%Z [5; 5; 5; 5]%Z [] [] [] [].

(** Two answers of a single token each, and no failure. *)
Definition single_tokens : list RequestFuncOutput.t :=
  [Scenario.succeeded "a" 1 0.1 10; Scenario.succeeded "b" 2 0.2 20].

(** An answer of five tokens, an answer of a single token and a failure. *)
Definition mixed_lengths : list RequestFuncOutput.t :=
  [Scenario.succeeded "abcde" 1 0.2 10; Scenario.succeeded "a" 2 0.2 20;
   Scenario.failed 10].

End Cases.

(** * Properties *)

(** ** Results and exceptions *)

Lemma bind_Ok {A B : Type} (m : result A) (k : A -> result B) (b : B) :
  Py.bind m k = Ok b -> exists a, m = Ok a /\ k a = Ok b.
Proof.
  destruct m as [a | e]; simpl; intros H.
  - exists a. split; [reflexivity | exact H].
  - discriminate H.
Qed.

Lemma not_Ok_raises {A : Type} (m : result A) :
  (forall a, m <> Ok a) -> raises m.
Proof.
  destruct m as [a | e]; intros H.
  - destruct (H a). reflexivity.
  - exists e. reflexivity.
Qed.

(** Two doubles that [==] tells apart are different, NaN aside. *)
Lemma float_neq (x y : float) :
  (x =? y)%float = false -> (y =? y)%float = true -> x <> y.
Proof.
  intros H Hy E. subst y. rewrite Hy in H. discriminate H.
Qed.

Ltac bind_inv H :=
  let a := fresh "v" in
  let E := fresh "E" in
  apply bind_Ok in H; destruct H as (a & E & H).

(** ** numpy on lists without [None] *)

Lemma floats_Some (l : list float) : np.floats (map Some l) = Ok l.
Proof.
  induction l as [| x l IH]; simpl.
  - reflexivity.
  - rewrite IH. reflexivity.
Qed.

Lemma min_Ok_nonempty (l : list float) (v : float) :
  np.min (np.List (map Some l)) = Ok v -> l <> [].
Proof.
  unfold np.min, np.asarray. rewrite floats_Some. simpl.
  destruct l as [| x l]; intros H.
  - discriminate H.
  - intros E. discriminate E.
Qed.

(** ** The loop of [calculate_metrics] *)

Section Tally.

Variable input_requests : list Request.
Variable tokenizer : Tokenizer.

(** A step leaves the TPOT samples alone unless the outcome succeeded
    with more than one token. *)
Lemma tally_step_tpots (i : nat) (o : RequestFuncOutput.t)
    (st st' : Tally.t) :
  tally_step input_requests tokenizer i o st = Ok st' ->
  samples_tpot tokenizer o = false ->
  Tally.tpots st' = Tally.tpots st.
Proof.
  unfold tally_step, samples_tpot, output_len_of.
  destruct (RequestFuncOutput.success o); simpl.
  - intros H Hs. rewrite Hs in H.
    bind_inv H. simpl in H. injection H as <-. reflexivity.
  - intros H _. injection H as <-. reflexivity.
Qed.

(** Samples only come from outcomes that give one. *)
Lemma tally_from_tpots (outputs : list RequestFuncOutput.t) :
  forall (i : nat) (st st' : Tally.t),
    tally_from input_requests tokenizer i outputs st = Ok st' ->
    (forall o, In o outputs -> samples_tpot tokenizer o = false) ->
    Tally.tpots st' = Tally.tpots st.
Proof.
  induction outputs as [| o rest IH]; simpl; intros i st st' H Hall.
  - injection H as <-. reflexivity.
  - bind_inv H.
    rewrite (IH _ _ _ H (fun o' Ho' => Hall o' (or_intror Ho'))).
    apply (tally_step_tpots _ _ _ _ E). apply Hall. left. reflexivity.
Qed.

(** What a step does to a well-formed outcome within the pool. *)
Lemma tally_step_timed (i : nat) (o : RequestFuncOutput.t) (st : Tally.t)
    (request : Request) :
  nth_error input_requests i = Some request ->
  timed o ->
  exists st',
    tally_step input_requests tokenizer i o st = Ok st' /\
    map Some (Tally.tpots st') =
      map Some (Tally.tpots st) ++
      map (tpot_of tokenizer) (filter (samples_tpot tokenizer) [o]) /\
    Tally.completed st' =
      (Tally.completed st
       + len (filter RequestFuncOutput.success [o]))%Z.
Proof.
  intros Hreq Htimed.
  unfold tally_step, getitem. rewrite Hreq.
  cbn [filter map]. unfold samples_tpot, tpot_of, output_len_of.
  destruct (RequestFuncOutput.success o) eqn:Hs; simpl.
  - destruct (Htimed Hs) as (latency & ttft & Hl & Ht).
    rewrite Hl, Ht. simpl.
    destruct (1 <? len (tokenizer (RequestFuncOutput.generated_text o)))%Z
      eqn:Hlen; simpl.
    + unfold float_div_int.
      assert (Hnz : (len (tokenizer (RequestFuncOutput.generated_text o))
                     - 1 =? 0)%Z = false) by lia.
      rewrite Hnz. simpl. eexists. split; [reflexivity |]. simpl.
      rewrite Hl, Ht, map_app. split; reflexivity.
    + eexists. split; [reflexivity |]. simpl.
      rewrite app_nil_r. split; reflexivity.
  - eexists. split; [reflexivity |]. simpl.
    rewrite app_nil_r. split; [reflexivity | unfold len; simpl; lia].
Qed.

Lemma tally_from_timed (outputs : list RequestFuncOutput.t) :
  forall (i : nat) (st : Tally.t),
    i + List.length outputs <= List.length input_requests ->
    (forall o, In o outputs -> timed o) ->
    exists st',
      tally_from input_requests tokenizer i outputs st = Ok st' /\
      map Some (Tally.tpots st') =
        map Some (Tally.tpots st) ++
        map (tpot_of tokenizer) (filter (samples_tpot tokenizer) outputs) /\
      Tally.completed st' =
        (Tally.completed st
         + len (filter RequestFuncOutput.success outputs))%Z.
Proof.
  induction outputs as [| o rest IH]; simpl; intros i st Hlen Htimed.
  - exists st. split; [reflexivity |].
    rewrite app_nil_r. split; [reflexivity | unfold len; simpl; lia].
  - destruct (nth_error input_requests i) as [request |] eqn:Hreq.
    2: { apply nth_error_None in Hreq. lia. }
    destruct (tally_step_timed i o st request Hreq
                  (Htimed o (or_introl eq_refl)))
      as (st1 & E1 & Htp1 & Hc1).
    destruct (IH (S i) st1) as (st2 & E2 & Htp2 & Hc2).
    { lia. }
    { intros o' Ho'. apply Htimed. right. exact Ho'. }
    exists st2. rewrite E1. simpl. split; [exact E2 |]. split.
    + rewrite Htp2, Htp1. rewrite <- app_assoc. f_equal.
      simpl. destruct (samples_tpot tokenizer o); reflexivity.
    + rewrite Hc2, Hc1. simpl.
      destruct (RequestFuncOutput.success o); unfold len; simpl; lia.
Qed.

(** The counter of completed requests, whatever the timings. *)
Lemma tally_from_completed (outputs : list RequestFuncOutput.t) :
  forall (i : nat) (st st' : Tally.t),
    tally_from input_requests tokenizer i outputs st = Ok st' ->
    Tally.completed st' =
      (Tally.completed st
       + len (filter RequestFuncOutput.success outputs))%Z.
Proof.
  induction outputs as [| o rest IH]; simpl; intros i st st' H.
  - injection H as <-. unfold len. simpl. lia.
  - bind_inv H. rewrite (IH _ _ _ H). clear H IH.
    unfold tally_step in E.
    destruct (RequestFuncOutput.success o).
    + bind_inv E. bind_inv E. injection E as <-. simpl.
      unfold len. simpl. lia.
    + injection E as <-. simpl. lia.
Qed.

(** When every successful outcome sits at the position of the request that
    produced it, [total_input] adds up the outcomes' own prompt lengths. *)
Lemma tally_from_total_input (outputs : list RequestFuncOutput.t) :
  forall (i : nat) (st st' : Tally.t),
    tally_from input_requests tokenizer i outputs st = Ok st' ->
    (forall j o,
       nth_error outputs j = Some o ->
       RequestFuncOutput.success o = true ->
       exists request,
         nth_error input_requests (i + j) = Some request /\
         item1 request = RequestFuncOutput.prompt_len o) ->
    Tally.total_input st' =
      fold_left Z.add
        (map RequestFuncOutput.prompt_len
           (filter RequestFuncOutput.success outputs))
        (Tally.total_input st).
Proof.
  induction outputs as [| o rest IH]; simpl; intros i st st' H Haligned.
  - injection H as <-. reflexivity.
  - bind_inv H. rewrite (IH _ _ _ H).
    2: { intros j o' Hj Hs.
         destruct (Haligned (S j) o' Hj Hs) as (request & Hreq & Hlen).
         exists request. split; [| exact Hlen].
         rewrite <- Hreq. f_equal. lia. }
    clear IH H. unfold tally_step in E.
    destruct (RequestFuncOutput.success o) eqn:Hs.
    + destruct (Haligned 0 o eq_refl Hs) as (request & Hreq & Hlen).
      rewrite Nat.add_0_r in Hreq.
      unfold getitem in E. rewrite Hreq in E. simpl in E.
      bind_inv E. injection E as <-. simpl. rewrite Hlen. reflexivity.
    + injection E as <-. reflexivity.
Qed.

End Tally.

(** ** [calculate_metrics] *)

(** What a normal return of [calculate_metrics] tells about the steps it
    went through. *)
Lemma calculate_metrics_Ok (input_requests : list Request)
    (outputs : list RequestFuncOutput.t) (dur_s : float)
    (tokenizer : Tokenizer) (r : BenchmarkMetrics * list Z) :
  calculate_metrics input_requests outputs dur_s tokenizer = Ok r ->
  exists (st : Tally.t) (min_tpot : float),
    tally_from input_requests tokenizer 0 outputs Tally.init = Ok st /\
    completed (fst r) = Tally.completed st /\
    total_input (fst r) = Tally.total_input st /\
    int_truediv (Tally.completed st) (len outputs)
      = Ok (successful_rate (fst r)) /\
    int_div_float (Tally.completed st) dur_s
      = Ok (request_throughput (fst r)) /\
    np.min (np.List (map Some (Tally.tpots st))) = Ok min_tpot.
Proof.
  unfold calculate_metrics. intros H.
  repeat bind_inv H. injection H as <-. simpl.
  eexists. eexists. repeat split; eassumption.
Qed.

(** A normal return needs a TPOT sample. *)
Lemma calculate_metrics_Ok_sample (input_requests : list Request)
    (outputs : list RequestFuncOutput.t) (dur_s : float)
    (tokenizer : Tokenizer) (r : BenchmarkMetrics * list Z) :
  calculate_metrics input_requests outputs dur_s tokenizer = Ok r ->
  exists o, In o outputs /\ samples_tpot tokenizer o = true.
Proof.
  intros H.
  destruct (calculate_metrics_Ok _ _ _ _ _ H)
    as (st & v & Hst & _ & _ & _ & _ & Hmin).
  apply min_Ok_nonempty in Hmin.
  destruct (existsb (samples_tpot tokenizer) outputs) eqn:Hex.
  - apply existsb_exists in Hex. exact Hex.
  - exfalso. apply Hmin.
    rewrite (tally_from_tpots _ _ _ _ _ _ Hst); [reflexivity |].
    intros o Ho.
    destruct (samples_tpot tokenizer o) eqn:Hs; [| reflexivity].
    assert (Hc : existsb (samples_tpot tokenizer) outputs = true)
      by (apply existsb_exists; exists o; split; assumption).
    rewrite Hc in Hex. discriminate Hex.
Qed.

(** The rate of success and the request throughput of a report that is
    returned. *)
Lemma calculate_metrics_rates (input_requests : list Request)
    (outputs : list RequestFuncOutput.t) (dur_s : float)
    (tokenizer : Tokenizer) (m : BenchmarkMetrics) (lens : list Z) :
  calculate_metrics input_requests outputs dur_s tokenizer = Ok (m, lens) ->
  completed m = len (filter RequestFuncOutput.success outputs) /\
  successful_rate m =
    (float_of_int (len (filter RequestFuncOutput.success outputs))
     / float_of_int (len outputs))%float /\
  request_throughput m =
    (float_of_int (len (filter RequestFuncOutput.success outputs))
     / dur_s)%float.
Proof.
  intros H.
  destruct (calculate_metrics_Ok _ _ _ _ _ H)
    as (st & v & Hst & Hc & _ & Hrate & Hthr & _).
  simpl in Hc, Hrate, Hthr.
  apply tally_from_completed in Hst. simpl in Hst.
  rewrite Hst in Hc, Hrate, Hthr.
  unfold int_truediv in Hrate. unfold int_div_float in Hthr.
  destruct (len outputs =? 0)%Z; [discriminate Hrate |].
  destruct (dur_s =? 0)%float; [discriminate Hthr |].
  injection Hrate as <-. injection Hthr as <-.
  split; [exact Hc |]. split; reflexivity.
Qed.

(** Every reduction returns on data that converts to a non-empty array. *)
Lemma reductions_Ok (a : np.array_like) (xs : list float) :
  np.asarray a = Ok xs -> xs <> [] ->
  (exists v, np.min a = Ok v) /\ (exists v, np.max a = Ok v) /\
  (exists v, np.mean a = Ok v) /\ (exists v, np.median a = Ok v) /\
  (forall q, exists v, np.percentile a q = Ok v).
Proof.
  intros Ha Hne.
  unfold np.min, np.max, np.mean, np.median, np.percentile.
  rewrite Ha. simpl.
  destruct xs as [| x xs]; [destruct (Hne eq_refl) |].
  repeat split; try (eexists; reflexivity).
  - destruct (existsb is_nan (x :: xs)); eexists; reflexivity.
  - intros q. destruct (existsb is_nan (x :: xs)); eexists; reflexivity.
Qed.

Lemma or_zero_asarray (l : list float) :
  exists xs, np.asarray (or_zero (map Some l)) = Ok xs /\ xs <> [].
Proof.
  destruct l as [| x l].
  - simpl. eexists. split; [reflexivity | discriminate].
  - exists (x :: l). split; [| discriminate].
    change (or_zero (map Some (x :: l))) with (np.List (map Some (x :: l))).
    apply floats_Some.
Qed.

Section TallyWithoutSample.

Variable input_requests : list Request.
Variable tokenizer : Tokenizer.

(** Without a sample to compute, the loop only needs the pool to be as
    long as the outcome list. *)
Lemma tally_from_no_sample (outputs : list RequestFuncOutput.t) :
  forall (i : nat) (st : Tally.t),
    i + List.length outputs <= List.length input_requests ->
    (forall o, In o outputs -> samples_tpot tokenizer o = false) ->
    exists st', tally_from input_requests tokenizer i outputs st = Ok st'.
Proof.
  induction outputs as [| o rest IH]; simpl; intros i st Hlen Hno.
  - exists st. reflexivity.
  - assert (Hstep : exists st1,
              tally_step input_requests tokenizer i o st = Ok st1).
    { unfold tally_step, getitem.
      destruct (nth_error input_requests i) as [request |] eqn:Hreq.
      2: { apply nth_error_None in Hreq. lia. }
      specialize (Hno o (or_introl eq_refl)).
      unfold samples_tpot, output_len_of in Hno.
      destruct (RequestFuncOutput.success o); simpl in *.
      - rewrite Hno. simpl. eexists. reflexivity.
      - eexists. reflexivity. }
    destruct Hstep as (st1 & E1). rewrite E1. simpl.
    apply IH; [lia |]. intros o' Ho'. apply Hno. right. exact Ho'.
Qed.

(** The TTFT list holds no [None] when the successes carry a TTFT. *)
Lemma tally_from_ttfts (outputs : list RequestFuncOutput.t) :
  forall (i : nat) (st st' : Tally.t),
    tally_from input_requests tokenizer i outputs st = Ok st' ->
    (forall o, In o outputs -> RequestFuncOutput.success o = true ->
               RequestFuncOutput.ttft o <> None) ->
    (exists l, Tally.ttfts st = map Some l) ->
    exists l', Tally.ttfts st' = map Some l'.
Proof.
  induction outputs as [| o rest IH]; simpl; intros i st st' H Hpres Hl.
  - injection H as <-. exact Hl.
  - bind_inv H. apply (IH _ _ _ H).
    + intros o' Ho'. apply Hpres. right. exact Ho'.
    + destruct Hl as (l & Hl).
      specialize (Hpres o (or_introl eq_refl)).
      unfold tally_step in E.
      destruct (RequestFuncOutput.success o).
      * bind_inv E. bind_inv E. injection E as <-. simpl.
        destruct (RequestFuncOutput.ttft o) as [t |].
        -- exists (l ++ [t]). rewrite Hl, map_app. reflexivity.
        -- destruct (Hpres eq_refl eq_refl).
      * injection E as <-. simpl. exists l. exact Hl.
Qed.

End TallyWithoutSample.

(** With no TPOT sample and nothing else in the way, the exception is the
    [ValueError] of [np.min] on the empty sample list. *)
Lemma calculate_metrics_ValueError (input_requests : list Request)
    (outputs : list RequestFuncOutput.t) (dur_s : float)
    (tokenizer : Tokenizer) :
  outputs <> [] ->
  (forall o, In o outputs -> samples_tpot tokenizer o = false) ->
  List.length outputs <= List.length input_requests ->
  (dur_s =? 0)%float = false ->
  (forall o, In o outputs -> RequestFuncOutput.success o = true ->
             RequestFuncOutput.ttft o <> None) ->
  calculate_metrics input_requests outputs dur_s tokenizer
    = Raise ValueError.
Proof.
  intros Hne Hno Hlen Hdur Hpres.
  destruct (tally_from_no_sample input_requests tokenizer outputs 0
              Tally.init Hlen Hno) as (st & Hst).
  pose proof (tally_from_tpots _ _ _ _ _ _ Hst Hno) as Htp. simpl in Htp.
  destruct (tally_from_ttfts _ _ _ _ _ _ Hst Hpres
              (ex_intro _ [] eq_refl)) as (l & Hl).
  destruct (or_zero_asarray l) as (xs & Hxs & Hxne).
  destruct (reductions_Ok _ _ Hxs Hxne)
    as ((v1 & E1) & (v2 & E2) & (v3 & E3) & (v4 & E4) & E5).
  destruct (E5 90%Z) as (v5 & E90). destruct (E5 99%Z) as (v6 & E99).
  unfold calculate_metrics. rewrite Hst. simpl.
  rewrite Htp, Hl, E1, E2, E3, E4, E90, E99.
  unfold int_truediv, int_div_float. rewrite Hdur.
  assert (Hz : (len outputs =? 0)%Z = false).
  { destruct outputs; [destruct (Hne eq_refl) | unfold len; simpl; lia]. }
  rewrite Hz. reflexivity.
Qed.

(** When every request failed no report is returned at all, whatever the
    pool, the duration and the tokenizer. *)
Lemma all_failed_raises (input_requests : list Request)
    (outputs : list RequestFuncOutput.t) (dur_s : float)
    (tokenizer : Tokenizer) :
  (forall o, In o outputs -> RequestFuncOutput.success o = false) ->
  raises (calculate_metrics input_requests outputs dur_s tokenizer).
Proof.
  intros Hfail. apply not_Ok_raises. intros r H.
  destruct (calculate_metrics_Ok_sample _ _ _ _ _ H) as (o & Ho & Hs).
  unfold samples_tpot in Hs. rewrite (Hfail o Ho) in Hs. discriminate Hs.
Qed.

(** ** The aggregator: statements of the design document *)

(** C10. On the empty outcome list [calculate_metrics] raises
    [ZeroDivisionError]: the loop does nothing and [completed / len(outputs)]
    is [0 / 0], whatever the pool, the duration and the tokenizer. *)
Theorem empty_outputs_ZeroDivisionError (input_requests : list Request)
    (dur_s : float) (tokenizer : Tokenizer) :
  calculate_metrics input_requests [] dur_s tokenizer
    = Raise ZeroDivisionError.
Proof.
  unfold calculate_metrics.
  change (tally_from input_requests tokenizer 0 [] Tally.init)
    with (Ok Tally.init).
  cbn [Py.bind Tally.completed Tally.init].
  change (int_truediv 0 (len (@nil RequestFuncOutput.t)))
    with (@Raise float ZeroDivisionError).
  reflexivity.
Qed.

(** The guard [ttfts or 0] turns an empty TTFT list into zeros. *)
Lemma empty_ttfts_zero :
  np.min (or_zero []) = Ok 0%float /\ np.max (or_zero []) = Ok 0%float /\
  np.mean (or_zero []) = Ok 0%float /\ np.median (or_zero []) = Ok 0%float /\
  np.percentile (or_zero []) 90 = Ok 0%float /\
  np.percentile (or_zero []) 99 = Ok 0%float.
Proof. repeat split. Qed.

(** C1. When every request failed, [calculate_metrics] does not return a
    report: on the three failed outcomes of [Scenario.all_failed] it raises
    the [ValueError] of [np.min(tpots)], after having computed zeros (not a
    marker of absence) for the TTFT statistics. *)
Theorem all_failed_ValueError :
  calculate_metrics Scenario.requests Scenario.all_failed 2
    Scenario.per_char = Raise ValueError.
Proof. vm_compute. reflexivity. Qed.

(** C4. One success of a single token and one failure: the rate of success
    would be one half, but [calculate_metrics] raises [ValueError] and
    reports no rate at all. *)
Theorem single_token_no_rate :
  calculate_metrics Scenario.requests Scenario.single_token 2
    Scenario.per_char = Raise ValueError.
Proof. vm_compute. reflexivity. Qed.

(** Where a report is returned the rate is as designed: seven successes and
    three failures give 0.7. *)
Lemma seven_of_ten_rate :
  exists m lens,
    calculate_metrics Scenario.ten_requests Scenario.seven_of_ten 2
      Scenario.per_char = Ok (m, lens) /\
    successful_rate m = 0.7%float.
Proof. vm_compute. eexists. eexists. split; reflexivity. Qed.

(** C9. If some request succeeded but no success has more than one token,
    [calculate_metrics] raises; when the pool covers the outcomes, the
    duration is not zero and the successes carry a TTFT, the exception is
    the [ValueError] of [np.min] on the empty TPOT list.  Hence a normal
    return requires a success with more than one token. *)
Theorem no_tpot_sample_raises (input_requests : list Request)
    (outputs : list RequestFuncOutput.t) (dur_s : float)
    (tokenizer : Tokenizer) :
  (outputs <> [] ->
   (exists o, In o outputs /\ RequestFuncOutput.success o = true) ->
   (forall o, In o outputs -> RequestFuncOutput.success o = true ->
              (output_len_of tokenizer o <= 1)%Z) ->
   raises (calculate_metrics input_requests outputs dur_s tokenizer) /\
   (List.length outputs <= List.length input_requests ->
    (dur_s =? 0)%float = false ->
    (forall o, In o outputs -> RequestFuncOutput.success o = true ->
               RequestFuncOutput.ttft o <> None) ->
    calculate_metrics input_requests outputs dur_s tokenizer
      = Raise ValueError)) /\
  (forall r,
     calculate_metrics input_requests outputs dur_s tokenizer = Ok r ->
     exists o, In o outputs /\ RequestFuncOutput.success o = true /\
               (1 < output_len_of tokenizer o)%Z).
Proof.
  assert (Hret : forall r,
             calculate_metrics input_requests outputs dur_s tokenizer = Ok r ->
             exists o, In o outputs /\ RequestFuncOutput.success o = true /\
                       (1 < output_len_of tokenizer o)%Z).
  { intros r H.
    destruct (calculate_metrics_Ok_sample _ _ _ _ _ H) as (o & Ho & Hs).
    unfold samples_tpot in Hs. apply andb_true_iff in Hs.
    destruct Hs as (Hs & Hl). exists o. repeat split; [exact Ho | exact Hs |].
    apply Z.ltb_lt. exact Hl. }
  split; [| exact Hret].
  intros Hne _ Hshort. split.
  - apply not_Ok_raises. intros r H.
    destruct (Hret r H) as (o & Ho & Hs & Hl).
    specialize (Hshort o Ho Hs). lia.
  - intros Hlen Hdur Hpres.
    apply calculate_metrics_ValueError; try assumption.
    intros o Ho. unfold samples_tpot.
    destruct (RequestFuncOutput.success o) eqn:Hs; [| reflexivity].
    simpl. apply Z.ltb_ge. apply Hshort; assumption.
Qed.

Lemma no_tpot_sample_raises_witness :
  calculate_metrics Scenario.requests Scenario.single_token 2
    Scenario.per_char = Raise ValueError /\
  exists o, In o Scenario.outcomes /\
            RequestFuncOutput.success o = true /\
            (1 < output_len_of Scenario.five_tokens o)%Z.
Proof.
  split.
  - destruct (no_tpot_sample_raises Scenario.requests Scenario.single_token
                2 Scenario.per_char) as (H & _).
    destruct H as (_ & Hv).
    + discriminate.
    + exists (Scenario.succeeded "a" 1 0.1 10).
      split; [left |]; reflexivity.
    + intros o [<- | [<- | []]]; intros Hs.
      * vm_compute. discriminate.
      * discriminate Hs.
    + apply Hv.
      * simpl. lia.
      * reflexivity.
      * intros o [<- | [<- | []]]; intros Hs.
        -- discriminate.
        -- discriminate Hs.
  - destruct (no_tpot_sample_raises Scenario.requests Scenario.outcomes 2
                Scenario.five_tokens) as (_ & H).
    destruct (calculate_metrics Scenario.requests Scenario.outcomes 2
                Scenario.five_tokens) as [r | e] eqn:E.
    + apply (H r eq_refl).
    + vm_compute in E. discriminate E.
Defined.

(** For outcomes within the pool whose successes carry their timings, the
    loop of [calculate_metrics] returns with a TPOT list that holds
    [(latency - ttft) / (output_len - 1)] for exactly the successes of more
    than one token, in order; every success, whatever its length, counts in
    [completed], and so in the request throughput of a report that is
    returned. *)
Lemma tpot_samples_exact (input_requests : list Request)
    (outputs : list RequestFuncOutput.t) (tokenizer : Tokenizer) :
  List.length outputs <= List.length input_requests ->
  (forall o, In o outputs -> timed o) ->
  exists st,
    tally_from input_requests tokenizer 0 outputs Tally.init = Ok st /\
    map Some (Tally.tpots st) =
      map (tpot_of tokenizer) (filter (samples_tpot tokenizer) outputs) /\
    Tally.completed st = len (filter RequestFuncOutput.success outputs) /\
    forall dur_s m lens,
      calculate_metrics input_requests outputs dur_s tokenizer
        = Ok (m, lens) ->
      completed m = len (filter RequestFuncOutput.success outputs) /\
      request_throughput m =
        (float_of_int (len (filter RequestFuncOutput.success outputs))
         / dur_s)%float.
Proof.
  intros Hlen Htimed.
  destruct (tally_from_timed input_requests tokenizer outputs 0 Tally.init
              Hlen Htimed) as (st & Hst & Htp & Hc).
  exists st. split; [exact Hst |]. split; [exact Htp |].
  split; [rewrite Hc; simpl; reflexivity |].
  intros dur_s m lens H.
  destruct (calculate_metrics_rates _ _ _ _ _ _ H) as (H1 & _ & H3).
  split; assumption.
Qed.

Lemma tpot_samples_exact_witness :
  exists st,
    tally_from Scenario.requests Scenario.per_char 0 Scenario.single_token
      Tally.init = Ok st /\
    Tally.tpots st = [] /\ Tally.completed st = 1%Z.
Proof.
  destruct (tpot_samples_exact Scenario.requests Scenario.single_token
              Scenario.per_char) as (st & Hst & Htp & Hc & _).
  - simpl. lia.
  - intros o [<- | [<- | []]]; intros Hs.
    + exists 1%float, 0.1%float. split; reflexivity.
    + discriminate Hs.
  - exists st. split; [exact Hst |]. split; [| exact Hc].
    destruct (Tally.tpots st); [reflexivity | discriminate Htp].
Defined.

(** Beside an answer of five tokens, an answer of a single token is counted
    and leaves the TPOT statistics to the other: the report has
    [completed = 2], a request throughput of 1 per second over 2 s, and
    the one TPOT sample [(1 - 0.2) / 4] as minimum, maximum and mean. *)
Lemma mixed_lengths_report :
  exists m lens,
    calculate_metrics Scenario.requests Cases.mixed_lengths 2
      Scenario.per_char = Ok (m, lens) /\
    completed m = 2%Z /\
    request_throughput m = 1%float /\
    min_tpot_ms m = ms ((1 - 0.2) / 4)%float /\
    max_tpot_ms m = ms ((1 - 0.2) / 4)%float /\
    mean_tpot_ms m = ms ((1 - 0.2) / 4)%float.
Proof. vm_compute. eexists. eexists. repeat split. Qed.

(** C3. Two answers of a single token each, no failure, 2 s of wall time:
    the loop ends with an empty TPOT list and [completed = 2], as designed,
    but [calculate_metrics] then raises [ValueError] in [np.min(tpots)], so
    the two successes are counted in no [completed] and in no request
    throughput: no report is returned. *)
Theorem single_token_successes_unreported :
  (exists st,
     tally_from Scenario.requests Scenario.per_char 0 Cases.single_tokens
       Tally.init = Ok st /\
     Tally.tpots st = [] /\ Tally.completed st = 2%Z) /\
  calculate_metrics Scenario.requests Cases.single_tokens 2
    Scenario.per_char = Raise ValueError.
Proof.
  split.
  - vm_compute. eexists. repeat split.
  - vm_compute. reflexivity.
Qed.

(** C8. The scenario of the design document: prompt lengths 10, 20, 10, 30,
    four successes with latencies 1, 2, 1, 2 s and TTFTs 0.1, 0.2, 0.1,
    0.2 s, five tokens each, 2 s of wall time.  The three throughputs are
    2, 35 and 10; the mean TTFT is the double next above 150, within 1e-13
    of it, because 0.1 + 0.2 + 0.1 + 0.2 rounds to 0.6000000000000001. *)
Theorem scenario_metrics (tokenizer : Tokenizer)
    (input_requests : list Request) (outputs : list RequestFuncOutput.t) :
  map item1 input_requests = [10; 20; 10; 30]%Z ->
  map RequestFuncOutput.success outputs = [true; true; true; true] ->
  map RequestFuncOutput.latency outputs
    = [Some 1; Some 2; Some 1; Some 2]%float ->
  map RequestFuncOutput.ttft outputs
    = [Some 0.1; Some 0.2; Some 0.1; Some 0.2]%float ->
  (forall o, In o outputs -> output_len_of tokenizer o = 5%Z) ->
  exists m lens,
    calculate_metrics input_requests outputs 2 tokenizer = Ok (m, lens) /\
    request_throughput m = 2%float /\
    input_throughput m = 35%float /\
    output_throughput m = 10%float /\
    mean_ttft_ms m = 150.00000000000003%float /\
    (abs (mean_ttft_ms m - 150) <? 1e-13)%float = true.
Proof.
  intros Hin Hs Hl Ht Htok.
  destruct input_requests as [| r0 [| r1 [| r2 [| r3 [| r4 rs]]]]];
    try discriminate Hin.
  destruct outputs as [| o0 [| o1 [| o2 [| o3 [| o4 os]]]]];
    try discriminate Hs.
  pose proof (Htok o0 (or_introl eq_refl)) as T0.
  pose proof (Htok o1 (or_intror (or_introl eq_refl))) as T1.
  pose proof (Htok o2 (or_intror (or_intror (or_introl eq_refl)))) as T2.
  pose proof (Htok o3
                (or_intror (or_intror (or_intror (or_introl eq_refl))))) as T3.
  unfold output_len_of in T0, T1, T2, T3.
  simpl in Hin, Hs, Hl, Ht.
  injection Hin as I0 I1 I2 I3.
  injection Hs as S0 S1 S2 S3.
  injection Hl as L0 L1 L2 L3.
  injection Ht as F0 F1 F2 F3.
  unfold calculate_metrics, tally_from, tally_step, getitem. simpl nth_error.
  simpl Py.bind.
  rewrite S0, S1, S2, S3, T0, T1, T2, T3, L0, L1, L2, L3, F0, F1, F2, F3,
    I0, I1, I2, I3.
  vm_compute. eexists. eexists. repeat split.
Qed.

Lemma scenario_metrics_witness :
  exists m lens,
    calculate_metrics Scenario.requests Scenario.outcomes 2
      Scenario.five_tokens = Ok (m, lens) /\
    request_throughput m = 2%float /\
    input_throughput m = 35%float /\
    output_throughput m = 10%float /\
    mean_ttft_ms m = 150.00000000000003%float /\
    (abs (mean_ttft_ms m - 150) <? 1e-13)%float = true.
Proof.
  apply (scenario_metrics Scenario.five_tokens Scenario.requests
           Scenario.outcomes); reflexivity.
Defined.

(** C8, as the design document words it, fails on that run: the mean TTFT
    returned is not 150.0, neither for [==] nor as a value. *)
Lemma scenario_mean_ttft_not_150 :
  exists m lens,
    calculate_metrics Scenario.requests Scenario.outcomes 2
      Scenario.five_tokens = Ok (m, lens) /\
    (mean_ttft_ms m =? 150)%float = false /\
    mean_ttft_ms m <> 150%float.
Proof.
  vm_compute. eexists. eexists. split; [reflexivity |].
  split; [reflexivity |].
  simpl. apply float_neq; reflexivity.
Qed.

(** ** The world: what a wait between two releases can change *)

Lemma sent_app (l1 l2 : list World.event) :
  World.sent (l1 ++ l2) = World.sent l1 ++ World.sent l2.
Proof.
  induction l1 as [| e l1 IH]; simpl.
  - reflexivity.
  - destruct e; simpl; rewrite IH; reflexivity.
Qed.

(** A wait reads no clock and sends nothing. *)
Lemma after_yield_frame (env : Env.t) (request_rate : float) (w : World.t) :
  World.clock_reads (snd (after_yield env request_rate w))
    = World.clock_reads w /\
  World.calls (snd (after_yield env request_rate w)) = World.calls w /\
  World.sent (World.log (snd (after_yield env request_rate w)))
    = World.sent (World.log w).
Proof.
  unfold after_yield.
  destruct (request_rate =? infinity)%float; simpl.
  - repeat split.
  - unfold IO.bind, IO.lift, float_div.
    destruct (request_rate =? 0)%float; simpl.
    + repeat split.
    + destruct (Env.exponential env (World.draws w) (1 / request_rate));
        simpl.
      * rewrite sent_app, app_nil_r. repeat split.
      * repeat split.
Qed.

(** At an infinite rate the wait is no step at all. *)
Lemma after_yield_inf (env : Env.t) (request_rate : float) (w : World.t) :
  (request_rate =? infinity)%float = true ->
  after_yield env request_rate w = (Ok tt, w) /\
  after_yield_async env request_rate w = (Ok tt, w).
Proof.
  intros H. unfold after_yield, after_yield_async. rewrite H.
  split; reflexivity.
Qed.

(** At a rate that is not zero the wait succeeds if the draws it makes,
    all at the scale [1.0 / request_rate], return intervals that the sleep
    accepts. *)
Lemma paces_of_draws (env : Env.t) (request_rate : float) :
  (request_rate =? 0)%float = false ->
  (forall n, exists interval,
     Env.exponential env n (1 / request_rate)%float = Ok interval /\
     Env.sleep env interval = Ok tt) ->
  paces env request_rate.
Proof.
  intros Hnz Hdraw w. unfold after_yield.
  destruct (request_rate =? infinity)%float; [reflexivity |].
  unfold IO.bind, IO.lift, float_div. rewrite Hnz. simpl.
  destruct (Hdraw (World.draws w)) as (x & Hx & Hs).
  rewrite Hx. simpl. rewrite Hs. reflexivity.
Qed.

Lemma paces_async_of_draws (env : Env.t) (request_rate : float) :
  (request_rate =? 0)%float = false ->
  (forall n, exists interval,
     Env.exponential env n (1 / request_rate)%float = Ok interval /\
     Env.asyncio_sleep env interval = Ok tt) ->
  paces_async env request_rate.
Proof.
  intros Hnz Hdraw w. unfold after_yield_async.
  destruct (request_rate =? infinity)%float; [reflexivity |].
  unfold IO.bind, IO.lift, float_div. rewrite Hnz. simpl.
  destruct (Hdraw (World.draws w)) as (x & Hx & Hs).
  rewrite Hx. simpl. rewrite Hs. reflexivity.
Qed.

(** ** Generators run to exhaustion *)

Section Exhaust.

Context {A : Type}.
Variable resume : IO.t unit.

Let collect : A -> list A -> IO.t (control (list A)) :=
  fun a acc => IO.ret (Continue (acc ++ [a])).

(** If resuming never fails, the consumer gets every item, in order. *)
Lemma exhaust_all (l : list A) :
  (forall w, fst (resume w) = Ok tt) ->
  forall acc w,
    fst (for_each (map (fun a => (a, resume)) l) collect acc w)
      = Ok (acc ++ l).
Proof.
  intros Hres. induction l as [| a l IH]; intros acc w; simpl.
  - rewrite app_nil_r. reflexivity.
  - unfold IO.bind, collect, IO.ret. simpl.
    specialize (Hres w). destruct (resume w) as [[[] | e] w1]; simpl in Hres.
    + fold collect. rewrite IH, <- app_assoc. reflexivity.
    + discriminate Hres.
Qed.

(** If resuming does nothing, neither does the generator. *)
Lemma exhaust_idle (l : list A) :
  (forall w, resume w = (Ok tt, w)) ->
  forall acc w,
    for_each (map (fun a => (a, resume)) l) collect acc w
      = (Ok (acc ++ l), w).
Proof.
  intros Hres. induction l as [| a l IH]; intros acc w; simpl.
  - rewrite app_nil_r. reflexivity.
  - unfold IO.bind, collect, IO.ret. simpl. rewrite Hres.
    fold collect. rewrite IH, <- app_assoc. reflexivity.
Qed.

End Exhaust.

(** C5. [get_request] and [get_request_async] hold the input list, in
    order, as what they yield.  At [request_rate = +inf] the consumer gets
    all of it and the world is unchanged: no sleep and no draw.  At any
    rate, the consumer of [get_request] gets all of it when the waits
    between releases do not raise, and so does the consumer of
    [get_request_async]. *)
Theorem scheduler_releases (env : Env.t) (input_requests : list Request)
    (request_rate : float) :
  map fst (get_request env input_requests request_rate) = input_requests /\
  map fst (get_request_async env input_requests request_rate)
    = input_requests /\
  ((request_rate =? infinity)%float = true ->
   forall w,
     exhaust (get_request env input_requests request_rate) w
       = (Ok input_requests, w) /\
     exhaust (get_request_async env input_requests request_rate) w
       = (Ok input_requests, w)) /\
  (paces env request_rate ->
   forall w,
     fst (exhaust (get_request env input_requests request_rate) w)
       = Ok input_requests) /\
  (paces_async env request_rate ->
   forall w,
     fst (exhaust (get_request_async env input_requests request_rate) w)
       = Ok input_requests).
Proof.
  unfold get_request, get_request_async, exhaust.
  split; [| split; [| split; [| split]]].
  - rewrite map_map. simpl. apply map_id.
  - rewrite map_map. simpl. apply map_id.
  - intros Hinf w. split.
    + apply (exhaust_idle (after_yield env request_rate) input_requests).
      intros w0. apply (after_yield_inf env request_rate w0 Hinf).
    + apply (exhaust_idle (after_yield_async env request_rate)
               input_requests).
      intros w0. apply (after_yield_inf env request_rate w0 Hinf).
  - intros Hp w.
    apply (exhaust_all (after_yield env request_rate) input_requests Hp).
  - intros Hpa w.
    apply (exhaust_all (after_yield_async env request_rate) input_requests
             Hpa).
Qed.

Lemma scheduler_releases_witness :
  exhaust (get_request Scenario.host Scenario.pool infinity) World.init
    = (Ok Scenario.pool, World.init) /\
  fst (exhaust (get_request Scenario.host Scenario.pool 2) World.init)
    = Ok Scenario.pool /\
  fst (exhaust (get_request_async Scenario.host Scenario.pool 2) World.init)
    = Ok Scenario.pool.
Proof.
  split; [| split].
  - destruct (scheduler_releases Scenario.host Scenario.pool infinity)
      as (_ & _ & H & _).
    apply (H eq_refl World.init).
  - destruct (scheduler_releases Scenario.host Scenario.pool 2)
      as (_ & _ & _ & H & _).
    apply H. intros w. reflexivity.
  - destruct (scheduler_releases Scenario.host Scenario.pool 2)
      as (_ & _ & _ & _ & H).
    apply H. intros w. reflexivity.
Defined.

(** The waits do not raise at any positive rate whose draws and sleeps
    succeed; a rate of zero, which the design document does not admit
    (the rate is [inf] or finite and positive), is where they do: resumed
    after its first release, the generator raises [ZeroDivisionError] in
    [1.0 / request_rate]. *)
Lemma scheduler_rate_zero :
  fst (exhaust (get_request Scenario.host Scenario.pool 0) World.init)
    = Raise ZeroDivisionError /\
  fst (exhaust (get_request Scenario.host Scenario.pool 0) World.init)
    <> Ok Scenario.pool /\
  fst (exhaust (get_request_async Scenario.host Scenario.pool 0) World.init)
    = Raise ZeroDivisionError.
Proof.
  split; [reflexivity |]. split; [| reflexivity].
  intros H. discriminate H.
Qed.

(** ** The loop of [benchmark] *)

Section BenchmarkLoop.

Variable env : Env.t.
Variable thread_stop_time : float.
Variable request_func : Env.request_func.
Variables model_id api_url : string.
Variable best_of : Z.
Variable use_beam_search : bool.
Variable benchmark_start_time : float.
Variable request_rate : float.

Hypothesis Hpaces : paces env request_rate.

Let input_of : Request -> RequestFuncInput.t :=
  make_input model_id api_url best_of use_beam_search.

Let body :=
  benchmark_body env thread_stop_time request_func model_id api_url best_of
    use_beam_search benchmark_start_time.

(** How many requests the loop sends when it starts in world [w]. *)
Let sends (w : World.t) (n : nat) : nat :=
  if (0 <? thread_stop_time)%float
  then in_time env thread_stop_time benchmark_start_time
         (World.clock_reads w) n
  else n.

(** The loop returns the answers to a prefix of the requests: those
    released before the stop time expired. *)
Lemma benchmark_loop (input_requests : list Request) :
  forall (outputs : list RequestFuncOutput.t) (w : World.t),
    exists w',
      for_each (get_request env input_requests request_rate) body outputs w
        = (Ok (outputs
               ++ answers request_func (World.calls w)
                    (map input_of
                       (firstn (sends w (List.length input_requests))
                          input_requests))), w') /\
      World.sent (World.log w')
        = World.sent (World.log w)
          ++ map input_of
               (firstn (sends w (List.length input_requests))
                  input_requests).
Proof.
  induction input_requests as [| request rest IH]; intros outputs w.
  - exists w. unfold sends. simpl.
    destruct (0 <? thread_stop_time)%float; simpl;
      rewrite !app_nil_r; split; reflexivity.
  - unfold sends. simpl. unfold IO.bind at 1. unfold body at 1.
    unfold benchmark_body, IO.bind at 1.
    destruct (0 <? thread_stop_time)%float eqn:Hstop.
    + (* a stop time is set: the clock is read *)
      unfold IO.bind at 1. simpl.
      destruct (thread_stop_time
                <=? Env.perf_counter env (World.clock_reads w)
                    - benchmark_start_time)%float eqn:Hexp; simpl.
      * eexists. rewrite !app_nil_r. split; reflexivity.
      * unfold IO.bind, IO.call, IO.ret. simpl.
        match goal with
        | |- context [after_yield env request_rate ?w1] =>
            pose proof (Hpaces w1) as Hp;
            pose proof (after_yield_frame env request_rate w1) as Hf;
            destruct (after_yield env request_rate w1) as [r w2]
        end.
        simpl in Hp, Hf. subst r. destruct Hf as (Hc & Hk & Hs).
        destruct (IH (outputs ++ [request_func (World.calls w)
                                    (input_of request)]) w2)
          as (w' & Hrun & Hsent).
        unfold sends in Hrun, Hsent. rewrite Hc in Hrun, Hsent.
        rewrite Hk in Hrun. fold body input_of.
        exists w'. split.
        -- unfold IO.bind in Hrun. rewrite Hrun, <- app_assoc. reflexivity.
        -- rewrite Hsent, Hs, sent_app, <- app_assoc. reflexivity.
    + (* no stop time: the request is sent *)
      unfold IO.bind, IO.call, IO.ret. simpl.
      match goal with
      | |- context [after_yield env request_rate ?w1] =>
          pose proof (Hpaces w1) as Hp;
          pose proof (after_yield_frame env request_rate w1) as Hf;
          destruct (after_yield env request_rate w1) as [r w2]
      end.
      simpl in Hp, Hf. subst r. destruct Hf as (Hc & Hk & Hs).
      destruct (IH (outputs ++ [request_func (World.calls w)
                                  (input_of request)]) w2)
        as (w' & Hrun & Hsent).
      unfold sends in Hrun, Hsent.
      rewrite Hk in Hrun. fold body input_of.
      exists w'. split.
      * unfold IO.bind in Hrun. rewrite Hrun, <- app_assoc. reflexivity.
      * rewrite Hsent, Hs, sent_app, <- app_assoc. reflexivity.
Qed.

(** Whether or not a wait fails, what the loop sends is made of a prefix
    of its requests. *)
Lemma benchmark_loop_sent (input_requests : list Request) :
  forall (outputs : list RequestFuncOutput.t) (w : World.t),
    exists d,
      d <= List.length input_requests /\
      World.sent
        (World.log
           (snd (for_each (get_request env input_requests request_rate) body
                   outputs w)))
        = World.sent (World.log w)
          ++ map input_of (firstn d input_requests).
Proof.
  induction input_requests as [| request rest IH]; intros outputs w.
  - exists 0. simpl. rewrite app_nil_r. split; [lia | reflexivity].
  - simpl. unfold IO.bind at 1. unfold body at 1.
    unfold benchmark_body, IO.bind at 1.
    assert (Hsend : forall w1,
              World.sent (World.log w1) = World.sent (World.log w) ->
              exists d,
                d <= S (List.length rest) /\
                World.sent
                  (World.log
                     (snd
                        (let (r, w2) :=
                           IO.bind
                             (IO.call request_func (input_of request))
                             (fun o => IO.ret (Continue (outputs ++ [o]))) w1
                         in
                         match r with
                         | Ok (Continue s') =>
                             IO.bind (after_yield env request_rate)
                               (fun _ =>
                                  for_each
                                    (get_request env rest request_rate) body
                                    s') w2
                         | Ok (Break s') => IO.ret s' w2
                         | Raise e => (Raise e, w2)
                         end)))
                = World.sent (World.log w)
                  ++ map input_of (firstn d (request :: rest))).
    { intros w1 Hw1. unfold IO.bind, IO.call, IO.ret. simpl.
      match goal with
      | |- context [after_yield env request_rate ?w2] =>
          pose proof (after_yield_frame env request_rate w2) as Hf;
          destruct (after_yield env request_rate w2) as [[[] | e] w3]
      end; simpl in Hf; destruct Hf as (_ & _ & Hs);
        rewrite sent_app, Hw1 in Hs; simpl in Hs.
      - destruct (IH (outputs ++ [request_func (World.calls w1)
                                    (input_of request)]) w3) as (d & Hd & Hd').
        exists (S d). split; [lia |]. fold body input_of.
        rewrite Hd', Hs, <- app_assoc. reflexivity.
      - exists 1. split; [lia |]. simpl. rewrite Hs. reflexivity. }
    destruct (0 <? thread_stop_time)%float.
    + unfold IO.bind at 1, IO.perf_counter, IO.ret at 1. simpl.
      destruct (thread_stop_time
                <=? Env.perf_counter env (World.clock_reads w)
                    - benchmark_start_time)%float.
      * exists 0. simpl. rewrite app_nil_r. split; [lia | reflexivity].
      * apply Hsend. reflexivity.
    + unfold IO.ret at 1. apply Hsend. reflexivity.
Qed.

End BenchmarkLoop.

(** ** [benchmark] in a thread *)

(** Started before any clock reading and any call, [benchmark] with a
    thread id other than -1 returns the answers to the requests it sent,
    which are the first [dispatched ...] of its list. *)
Lemma benchmark_outputs (env : Env.t) (thread_stop_time : float)
    (thread_id : Z) (backend api_url model_id : string)
    (tokenizer : Tokenizer) (input_requests : list Request) (best_of : Z)
    (use_beam_search : bool) (request_rate : float)
    (request_func : Env.request_func) (w : World.t) :
  Env.REQUEST_FUNCS env backend = Some request_func ->
  paces env request_rate ->
  thread_id <> (-1)%Z ->
  World.clock_reads w = 0 ->
  World.calls w = 0 ->
  let sent :=
    map (make_input model_id api_url best_of use_beam_search)
      (firstn (dispatched env thread_stop_time (List.length input_requests))
         input_requests) in
  exists w',
    benchmark env thread_stop_time backend api_url model_id tokenizer
      input_requests best_of use_beam_search request_rate thread_id w
      = (Ok (Outputs (answers request_func 0 sent)), w') /\
    World.sent (World.log w') = World.sent (World.log w) ++ sent.
Proof.
  intros Hf Hp Htid Hreads Hcalls sent.
  unfold benchmark, IO.bind at 1, IO.lift. rewrite Hf.
  unfold IO.bind at 1, IO.perf_counter. rewrite Hreads, Hcalls.
  unfold IO.bind at 1.
  match goal with
  | |- context [for_each ?g ?b ?o ?w1] =>
      destruct (benchmark_loop env thread_stop_time request_func model_id
                  api_url best_of use_beam_search (Env.perf_counter env 0)
                  request_rate Hp input_requests o w1)
        as (w' & Hrun & Hsent)
  end.
  rewrite Hrun. simpl in Hsent |- *.
  assert (Hid : (thread_id =? -1)%Z = false) by (apply Z.eqb_neq; exact Htid).
  rewrite Hid. unfold IO.ret. exists w'. split.
  - reflexivity.
  - exact Hsent.
Qed.

(** The same for a thread, whose [run] first sleeps. *)
Lemma benchThread_run_outputs (env : Env.t) (thread_stop_time : float)
    (thread_id : Z) (ramp_up_time : float) (backend api_url model_id : string)
    (tokenizer : Tokenizer) (input_requests : list Request) (best_of : Z)
    (use_beam_search : bool) (request_rate : float)
    (request_func : Env.request_func) :
  Env.REQUEST_FUNCS env backend = Some request_func ->
  paces env request_rate ->
  Env.sleep env ramp_up_time = Ok tt ->
  thread_id <> (-1)%Z ->
  let sent :=
    map (make_input model_id api_url best_of use_beam_search)
      (firstn (dispatched env thread_stop_time (List.length input_requests))
         input_requests) in
  exists w',
    benchThread_run env thread_stop_time thread_id ramp_up_time backend
      api_url model_id tokenizer input_requests best_of use_beam_search
      request_rate World.init
      = (Ok (Outputs (answers request_func 0 sent)), w') /\
    World.sent (World.log w') = sent.
Proof.
  intros Hf Hp Hsleep Htid sent.
  unfold benchThread_run, IO.bind at 1, IO.sleep, IO.logged. simpl.
  rewrite Hsleep.
  match goal with
  | |- context [benchmark _ _ _ _ _ _ _ _ _ _ _ ?w1] =>
      destruct (benchmark_outputs env thread_stop_time thread_id backend
                  api_url model_id tokenizer input_requests best_of
                  use_beam_search request_rate request_func w1 Hf Hp Htid
                  eq_refl eq_refl) as (w' & Hrun & Hsent)
  end.
  exists w'. split; [exact Hrun | exact Hsent].
Qed.

(** Whatever happens to a thread, the inputs it sent are made of a prefix
    of its own requests. *)
Lemma thread_sends_own_requests (env : Env.t) (thread_stop_time : float)
    (thread_id : Z) (ramp_up_time : float) (backend api_url model_id : string)
    (tokenizer : Tokenizer) (input_requests : list Request) (best_of : Z)
    (use_beam_search : bool) (request_rate : float) :
  exists d,
    d <= List.length input_requests /\
    World.sent
      (World.log
         (snd (benchThread_run env thread_stop_time thread_id ramp_up_time
                 backend api_url model_id tokenizer input_requests best_of
                 use_beam_search request_rate World.init)))
      = map (make_input model_id api_url best_of use_beam_search)
          (firstn d input_requests).
Proof.
  unfold benchThread_run, IO.bind at 1, IO.sleep, IO.logged. simpl.
  destruct (Env.sleep env ramp_up_time) as [[] | e].
  2: { exists 0. split; [lia | reflexivity]. }
  unfold benchmark, IO.bind at 1, IO.lift.
  destruct (Env.REQUEST_FUNCS env backend) as [request_func |].
  2: { exists 0. split; [lia | reflexivity]. }
  unfold IO.bind at 1, IO.perf_counter. simpl. unfold IO.bind at 1.
  match goal with
  | |- context [for_each ?g ?b ?o ?w] =>
      destruct (benchmark_loop_sent env thread_stop_time request_func
                  model_id api_url best_of use_beam_search
                  (Env.perf_counter env 0) request_rate input_requests o w)
        as (d & Hd & Hsent);
      destruct (for_each g b o w) as [[outputs | e] w']
  end; simpl in Hsent; exists d; (split; [exact Hd |]).
  - destruct (thread_id =? -1)%Z.
    + unfold IO.bind, IO.perf_counter, IO.lift, IO.ret. simpl.
      destruct (calculate_metrics input_requests outputs
                  (Env.perf_counter env (World.clock_reads w')
                   - Env.perf_counter env 0) tokenizer); exact Hsent.
    + exact Hsent.
  - exact Hsent.
Qed.

Lemma answers_length (f : Env.request_func) (inputs : list RequestFuncInput.t) :
  forall c, List.length (answers f c inputs) = List.length inputs.
Proof.
  induction inputs as [| i rest IH]; intros c; simpl.
  - reflexivity.
  - rewrite IH. reflexivity.
Qed.

(** ** Release points and the stop time *)

Section ReleasePoints.

Variable env : Env.t.
Variables thread_stop_time start : float.

Let expired (read : nat) : bool :=
  (thread_stop_time <=? Env.perf_counter env read - start)%float.

Lemma in_time_le (n : nat) :
  forall read, in_time env thread_stop_time start read n <= n.
Proof.
  induction n as [| n IH]; intros read; simpl.
  - lia.
  - destruct (thread_stop_time <=? Env.perf_counter env read - start)%float.
    + lia.
    + specialize (IH (S read)). lia.
Qed.

(** No release point counted as in time had reached the stop time. *)
Lemma in_time_before (n : nat) :
  forall read j,
    j < in_time env thread_stop_time start read n ->
    expired (read + j) = false.
Proof.
  unfold expired.
  induction n as [| n IH]; intros read j; simpl.
  - lia.
  - destruct (thread_stop_time <=? Env.perf_counter env read - start)%float
      eqn:Hexp.
    + lia.
    + intros Hj. destruct j as [| j].
      * rewrite Nat.add_0_r. exact Hexp.
      * replace (read + S j) with (S read + j) by lia.
        apply IH. lia.
Qed.

(** If some release point was not in time, the first such had reached the
    stop time. *)
Lemma in_time_expired (n : nat) :
  forall read,
    in_time env thread_stop_time start read n < n ->
    expired (read + in_time env thread_stop_time start read n) = true.
Proof.
  unfold expired.
  induction n as [| n IH]; intros read; simpl.
  - lia.
  - destruct (thread_stop_time <=? Env.perf_counter env read - start)%float
      eqn:Hexp.
    + intros _. rewrite Nat.add_0_r. exact Hexp.
    + intros Hlt.
      replace (read + S (in_time env thread_stop_time start (S read) n))
        with (S read + in_time env thread_stop_time start (S read) n)
        by lia.
      apply IH. lia.
Qed.

End ReleasePoints.

(** C7. A thread with a positive stop time sends the requests released
    before the first release point at which the elapsed time has reached
    the stop time, and returns the answer to each of them: no request is
    sent at or after that point, the rest of the list is dropped, and
    nothing read from the clock after a request was sent removes its
    answer. *)
Theorem stop_time_at_release_points (env : Env.t) (thread_stop_time : float)
    (thread_id : Z) (backend api_url model_id : string)
    (tokenizer : Tokenizer) (input_requests : list Request) (best_of : Z)
    (use_beam_search : bool) (request_rate : float)
    (request_func : Env.request_func) :
  (0 <? thread_stop_time)%float = true ->
  Env.REQUEST_FUNCS env backend = Some request_func ->
  paces env request_rate ->
  thread_id <> (-1)%Z ->
  let elapsed (j : nat) : float :=
    (Env.perf_counter env (S j) - Env.perf_counter env 0)%float in
  let d := dispatched env thread_stop_time (List.length input_requests) in
  let sent :=
    map (make_input model_id api_url best_of use_beam_search)
      (firstn d input_requests) in
  (exists w',
     benchmark env thread_stop_time backend api_url model_id tokenizer
       input_requests best_of use_beam_search request_rate thread_id
       World.init
       = (Ok (Outputs (answers request_func 0 sent)), w') /\
     World.sent (World.log w') = sent) /\
  List.length (answers request_func 0 sent) = d /\
  d <= List.length input_requests /\
  (forall j, j < d -> (thread_stop_time <=? elapsed j)%float = false) /\
  (d < List.length input_requests ->
   (thread_stop_time <=? elapsed d)%float = true).
Proof.
  intros Hstop Hf Hp Htid elapsed d sent.
  assert (Hd : d = in_time env thread_stop_time (Env.perf_counter env 0) 1
                     (List.length input_requests)).
  { unfold d, dispatched. rewrite Hstop. reflexivity. }
  assert (Hle : d <= List.length input_requests).
  { rewrite Hd. apply in_time_le. }
  split; [| split; [| split; [| split]]].
  - destruct (benchmark_outputs env thread_stop_time thread_id backend
                api_url model_id tokenizer input_requests best_of
                use_beam_search request_rate request_func World.init Hf Hp
                Htid eq_refl eq_refl) as (w' & Hrun & Hsent).
    exists w'. split; [exact Hrun | exact Hsent].
  - unfold sent. rewrite answers_length, length_map, length_firstn. lia.
  - exact Hle.
  - intros j Hj. rewrite Hd in Hj.
    apply (in_time_before env thread_stop_time (Env.perf_counter env 0)
             _ 1 j Hj).
  - intros Hlt. rewrite Hd in Hlt |- *.
    apply (in_time_expired env thread_stop_time (Env.perf_counter env 0)
             _ 1 Hlt).
Qed.

Lemma stop_time_at_release_points_witness :
  exists w',
    benchmark (Scenario.workers 0) 3 "vllm" "u" "m" Scenario.five_tokens
      Scenario.pool 1 false infinity 0 World.init
      = (Ok (Outputs
               [Scenario.echo 0
                  (make_input "m" "u" 1 false ("p0"%string, 10, 5)%Z)]),
         w').
Proof.
  destruct (stop_time_at_release_points (Scenario.workers 0) 3 0 "vllm" "u"
              "m" Scenario.five_tokens Scenario.pool 1 false infinity
              Scenario.echo) as ((w' & Hrun & _) & _).
  - reflexivity.
  - reflexivity.
  - intros w. reflexivity.
  - discriminate.
  - exists w'. exact Hrun.
Defined.

(** ** Slices of the pool *)

Lemma firstn_add_skipn {A : Type} (a b : nat) (l : list A) :
  firstn (a + b) l = firstn a l ++ firstn b (skipn a l).
Proof.
  revert l. induction a as [| a IH]; intros l; simpl.
  - reflexivity.
  - destruct l as [| x l]; simpl.
    + rewrite firstn_nil. reflexivity.
    + rewrite IH. reflexivity.
Qed.

Lemma concat_chunks {A : Type} (k : nat) (l : list A) (n : nat) :
  List.concat (map (fun i => firstn k (skipn (i * k) l)) (seq 0 n))
    = firstn (n * k) l.
Proof.
  induction n as [| n IH].
  - reflexivity.
  - rewrite seq_S, map_app, concat_app, IH. simpl.
    rewrite app_nil_r. replace (k + n * k) with (n * k + k) by lia.
    rewrite firstn_add_skipn. reflexivity.
Qed.

Section Slices.

Variable args : Args.t.
Variable input_requests : list Request.
Variables N k : nat.

Hypothesis Hprompts : Args.num_prompts args = Z.of_nat k.
Hypothesis Hpool : List.length input_requests = N * k.

(** Thread [i] gets the [k] requests from position [i * k] on. *)
Lemma thread_requests_chunk (i : nat) :
  i < N ->
  thread_requests args input_requests i
    = firstn k (skipn (i * k) input_requests).
Proof.
  intros Hi. unfold thread_requests, slice, clip, len.
  rewrite Hprompts, Hpool.
  assert (H1 : (Z.of_nat i * Z.of_nat k <? 0)%Z = false) by lia.
  assert (H2 : ((Z.of_nat i + 1) * Z.of_nat k <? 0)%Z = false) by lia.
  rewrite H1, H2.
  assert (Hlo : i * k <= N * k) by nia.
  assert (Hhi : (i + 1) * k <= N * k) by nia.
  replace (Z.min (Z.of_nat i * Z.of_nat k) (Z.of_nat (N * k)))
    with (Z.of_nat (i * k)) by lia.
  replace (Z.min ((Z.of_nat i + 1) * Z.of_nat k) (Z.of_nat (N * k)))
    with (Z.of_nat ((i + 1) * k)) by lia.
  replace (Z.to_nat (Z.of_nat ((i + 1) * k) - Z.of_nat (i * k))) with k
    by lia.
  rewrite Nat2Z.id. reflexivity.
Qed.

Lemma thread_requests_length (i : nat) :
  i < N -> List.length (thread_requests args input_requests i) = k.
Proof.
  intros Hi. rewrite (thread_requests_chunk i Hi).
  rewrite length_firstn, length_skipn, Hpool. nia.
Qed.

Lemma thread_requests_nth (i j : nat) :
  i < N -> j < k ->
  nth_error (thread_requests args input_requests i) j
    = nth_error input_requests (i * k + j).
Proof.
  intros Hi Hj. rewrite (thread_requests_chunk i Hi).
  rewrite nth_error_firstn, nth_error_skipn.
  destruct (j <? k) eqn:E; [reflexivity |].
  apply Nat.ltb_ge in E. lia.
Qed.

Lemma thread_requests_cover :
  List.concat (map (thread_requests args input_requests) (seq 0 N))
    = input_requests.
Proof.
  rewrite (map_ext_in _ (fun i => firstn k (skipn (i * k) input_requests))).
  - rewrite concat_chunks, <- Hpool. apply firstn_all.
  - intros i Hi. apply in_seq in Hi. apply thread_requests_chunk. lia.
Qed.

End Slices.

(** ** The threads of [main] *)

Lemma thread_ramp_up_Ok (args : Args.t) (i : nat) :
  Args.num_threads args <> 0%Z ->
  thread_ramp_up args i = Ok (ramp_up_of args i).
Proof.
  intros Hn. unfold thread_ramp_up, float_div_int, ramp_up_of.
  apply Z.eqb_neq in Hn. rewrite Hn. reflexivity.
Qed.

Lemma length_concat_const {A : Type} (g : nat -> list A) (k : nat)
    (ids : list nat) :
  (forall i, In i ids -> List.length (g i) = k) ->
  List.length (List.concat (map g ids)) = List.length ids * k.
Proof.
  induction ids as [| i ids IH]; intros Hg; simpl.
  - reflexivity.
  - rewrite length_app, (Hg i (or_introl eq_refl)), IH.
    + reflexivity.
    + intros j Hj. apply Hg. right. exact Hj.
Qed.

Section Threads.

Variable workers : nat -> Env.t.
Variable args : Args.t.
Variable api_url : string.
Variable tokenizer : Tokenizer.
Variable input_requests : list Request.

(** What each thread leaves in [self.outputs]. *)
Variable outputs_of : nat -> list RequestFuncOutput.t.

Hypothesis Hthreads : Args.num_threads args <> 0%Z.

(** Threads that all return are joined in the order they were started. *)
Lemma start_join (ids : list nat) :
  (forall i, In i ids ->
     benchThread_get_result
       (thread_run (workers i) args api_url tokenizer input_requests i
          (ramp_up_of args i)) = Ok (outputs_of i)) ->
  exists threads,
    start_threads workers args api_url tokenizer input_requests ids
      = Ok threads /\
    forall all_outputs,
      join_outputs threads all_outputs
        = Ok (all_outputs ++ List.concat (map outputs_of ids)).
Proof.
  induction ids as [| i ids IH]; intros Hres; simpl.
  - exists []. split; [reflexivity |].
    intros acc. simpl. rewrite app_nil_r. reflexivity.
  - destruct IH as (threads & Hstart & Hjoin).
    { intros j Hj. apply Hres. right. exact Hj. }
    rewrite (thread_ramp_up_Ok args i Hthreads). simpl.
    rewrite Hstart. simpl. eexists. split; [reflexivity |].
    intros acc. simpl. rewrite (Hres i (or_introl eq_refl)). simpl.
    rewrite Hjoin, <- app_assoc. reflexivity.
Qed.

End Threads.

(** C6. [N] threads over a pool of [N * k] requests, each thread in an
    environment where the backend is known and neither the ramp-up sleep
    nor a wait between releases fails.  Thread [i] gets the [k] requests
    at positions [i * k .. (i + 1) * k - 1], and the slices together are the
    pool.  A thread sends inputs made of a prefix of its own slice and
    returns the answers in the order it sent them.  The outcomes are
    concatenated in the order of the thread ids, and when no thread stops
    early there are [N * k] of them. *)
Theorem partitioned_mode (workers : nat -> Env.t)
    (request_func : nat -> Env.request_func) (args : Args.t)
    (api_url : string) (tokenizer : Tokenizer)
    (input_requests : list Request) (N k : nat) :
  Args.num_threads args = Z.of_nat N ->
  0 < N ->
  Args.num_prompts args = Z.of_nat k ->
  List.length input_requests = N * k ->
  (forall i, i < N ->
     Env.REQUEST_FUNCS (workers i) (Args.backend args)
       = Some (request_func i)) ->
  (forall i, i < N -> paces (workers i) (Args.request_rate args)) ->
  (forall i, i < N -> Env.sleep (workers i) (ramp_up_of args i) = Ok tt) ->
  let input_of :=
    make_input (Args.model args) api_url (Args.best_of args)
      (Args.use_beam_search args) in
  let d i := dispatched (workers i) (Args.thread_stop_time args) k in
  let sent i :=
    map input_of (firstn (d i) (thread_requests args input_requests i)) in
  (forall i, i < N ->
     List.length (thread_requests args input_requests i) = k /\
     forall j, j < k ->
       nth_error (thread_requests args input_requests i) j
         = nth_error input_requests (i * k + j)) /\
  List.concat (map (thread_requests args input_requests) (seq 0 N))
    = input_requests /\
  (forall i, i < N ->
     d i <= k /\
     exists w',
       thread_run (workers i) args api_url tokenizer input_requests i
         (ramp_up_of args i) World.init
         = (Ok (Outputs (answers (request_func i) 0 (sent i))), w') /\
       World.sent (World.log w') = sent i) /\
  run_threads workers args api_url tokenizer input_requests
    = Ok (List.concat
            (map (fun i => answers (request_func i) 0 (sent i)) (seq 0 N))) /\
  ((forall i, i < N -> d i = k) ->
   exists all_outputs,
     run_threads workers args api_url tokenizer input_requests
       = Ok all_outputs /\
     List.length all_outputs = N * k).
Proof.
  intros HN Hpos Hk Hpool Hf Hp Hsleep input_of d sent.
  assert (Hlen : forall i, i < N ->
            List.length (thread_requests args input_requests i) = k).
  { intros i Hi. apply (thread_requests_length args input_requests N k Hk
                          Hpool i Hi). }
  assert (Hrun : forall i, i < N ->
            exists w',
              thread_run (workers i) args api_url tokenizer input_requests i
                (ramp_up_of args i) World.init
                = (Ok (Outputs (answers (request_func i) 0 (sent i))), w') /\
              World.sent (World.log w') = sent i).
  { intros i Hi. unfold thread_run, sent, d. rewrite <- (Hlen i Hi).
    apply benchThread_run_outputs.
    - apply Hf. exact Hi.
    - apply Hp. exact Hi.
    - apply Hsleep. exact Hi.
    - lia. }
  assert (Hall : run_threads workers args api_url tokenizer input_requests
                 = Ok (List.concat
                         (map (fun i => answers (request_func i) 0 (sent i))
                            (seq 0 N)))).
  { unfold run_threads. rewrite HN, Nat2Z.id.
    destruct (start_join workers args api_url tokenizer input_requests
                (fun i => answers (request_func i) 0 (sent i))
                ltac:(lia) (seq 0 N)) as (threads & Hstart & Hjoin).
    - intros i Hi. apply in_seq in Hi.
      destruct (Hrun i ltac:(lia)) as (w' & Hi' & _).
      unfold benchThread_get_result. rewrite Hi'. reflexivity.
    - rewrite Hstart. simpl. rewrite Hjoin. reflexivity. }
  split; [| split; [| split; [| split]]].
  - intros i Hi. split; [apply Hlen; exact Hi |].
    intros j Hj.
    apply (thread_requests_nth args input_requests N k Hk Hpool i j Hi Hj).
  - apply (thread_requests_cover args input_requests N k Hk Hpool).
  - intros i Hi. split; [| apply Hrun; exact Hi].
    unfold d, dispatched.
    destruct (0 <? Args.thread_stop_time args)%float; [| lia].
    apply in_time_le.
  - exact Hall.
  - intros Hfull. eexists. split; [exact Hall |].
    rewrite (length_concat_const _ k).
    + rewrite length_seq. reflexivity.
    + intros i Hi. apply in_seq in Hi.
      unfold sent. rewrite answers_length, length_map, length_firstn.
      rewrite (Hfull i ltac:(lia)), (Hlen i ltac:(lia)). lia.
Qed.

Lemma partitioned_mode_witness :
  run_threads Scenario.workers Scenario.args "u" Scenario.five_tokens
    Scenario.pool
    = Ok [Scenario.succeeded "a b c d e" 1 0.5 10;
          Scenario.succeeded "a b c d e" 1 0.5 30;
          Scenario.succeeded "a b c d e" 1 0.5 40].
Proof.
  destruct (partitioned_mode Scenario.workers (fun _ => Scenario.echo)
              Scenario.args "u" Scenario.five_tokens Scenario.pool 2 2)
    as (_ & _ & _ & Hall & _).
  - reflexivity.
  - lia.
  - reflexivity.
  - reflexivity.
  - intros i Hi. reflexivity.
  - intros i Hi w. reflexivity.
  - intros i Hi. reflexivity.
  - rewrite Hall. reflexivity.
Defined.

(** C2. Two threads of two requests; thread 0 stops after its first
    request, thread 1 sends both of its own.  The three outcomes, all
    successful, belong to the prompts of lengths 10, 30 and 40, which sum
    to 80; [calculate_metrics] pairs the outcomes with the first three
    requests of the pool and reports 10 + 20 + 30 = 60. *)
Theorem early_stop_total_input :
  exists all_outputs report,
    run_threads Scenario.workers Scenario.args "u" Scenario.five_tokens
      Scenario.pool = Ok all_outputs /\
    map RequestFuncOutput.success all_outputs = [true; true; true] /\
    map RequestFuncOutput.prompt_len all_outputs = [10; 30; 40]%Z /\
    main Scenario.host Scenario.workers Scenario.args "u"
      Scenario.five_tokens Scenario.pool = Ok report /\
    Report.input_lens report = [10; 30; 40]%Z /\
    Report.total_input_tokens report = 60%Z.
Proof.
  vm_compute. eexists. eexists. repeat split.
Qed.

(** * Further properties *)

(** ** More on the loop of [calculate_metrics] *)

Section TallyLists.

Variable input_requests : list Request.
Variable tokenizer : Tokenizer.

(** The three lists that grow with every outcome or every success. *)
Lemma tally_from_lists (outputs : list RequestFuncOutput.t) :
  forall (i : nat) (st st' : Tally.t),
    tally_from input_requests tokenizer i outputs st = Ok st' ->
    Tally.actual_output_lens st' =
      Tally.actual_output_lens st
      ++ map (output_len_entry tokenizer) outputs /\
    Tally.ttfts st' =
      Tally.ttfts st
      ++ map RequestFuncOutput.ttft
           (filter RequestFuncOutput.success outputs) /\
    Tally.tprs st' =
      Tally.tprs st
      ++ map RequestFuncOutput.latency
           (filter RequestFuncOutput.success outputs).
Proof.
  induction outputs as [| o rest IH]; simpl; intros i st st' H.
  - injection H as <-. rewrite !app_nil_r. repeat split.
  - bind_inv H. destruct (IH _ _ _ H) as (Hl & Ht & Hr). clear IH H.
    rewrite Hl, Ht, Hr. unfold tally_step in E.
    unfold output_len_entry at 2. unfold output_len_of.
    destruct (RequestFuncOutput.success o).
    + bind_inv E. bind_inv E. injection E as <-. simpl.
      rewrite <- !app_assoc. repeat split.
    + injection E as <-. simpl. rewrite <- !app_assoc. repeat split.
Qed.

(** The loop stops with [IndexError] at a successful outcome that sits
    right behind the end of the pool. *)
Lemma tally_from_IndexError (outputs : list RequestFuncOutput.t) :
  forall (i : nat) (st : Tally.t) (o : RequestFuncOutput.t),
    i <= List.length input_requests ->
    nth_error outputs (List.length input_requests - i) = Some o ->
    RequestFuncOutput.success o = true ->
    (forall o', In o' outputs -> timed o') ->
    tally_from input_requests tokenizer i outputs st = Raise IndexError.
Proof.
  induction outputs as [| o' rest IH]; intros i st o Hi Hnth Hs Htimed.
  - destruct (List.length input_requests - i); discriminate Hnth.
  - simpl. destruct (Nat.eq_dec i (List.length input_requests)) as [-> | Hne].
    + rewrite Nat.sub_diag in Hnth. simpl in Hnth. injection Hnth as ->.
      unfold tally_step, getitem. rewrite Hs.
      assert (Hnone : nth_error input_requests (List.length input_requests)
                      = None) by (apply nth_error_None; lia).
      rewrite Hnone. reflexivity.
    + destruct (nth_error input_requests i) as [request |] eqn:Hreq.
      2: { apply nth_error_None in Hreq. lia. }
      destruct (tally_step_timed input_requests tokenizer i o' st request
                  Hreq (Htimed o' (or_introl eq_refl)))
        as (st1 & E1 & _).
      rewrite E1. simpl. apply (IH (S i) st1 o).
      * lia.
      * replace (List.length input_requests - i)
          with (S (List.length input_requests - S i)) in Hnth by lia.
        exact Hnth.
      * exact Hs.
      * intros o'' Ho''. apply Htimed. right. exact Ho''.
Qed.

End TallyLists.

(** What a normal return tells about the list of output lengths. *)
Lemma calculate_metrics_Ok_lens (input_requests : list Request)
    (outputs : list RequestFuncOutput.t) (dur_s : float)
    (tokenizer : Tokenizer) (r : BenchmarkMetrics * list Z) :
  calculate_metrics input_requests outputs dur_s tokenizer = Ok r ->
  exists st : Tally.t,
    tally_from input_requests tokenizer 0 outputs Tally.init = Ok st /\
    snd r = Tally.actual_output_lens st /\
    total_output (fst r) = Py.sum (Tally.actual_output_lens st).
Proof.
  unfold calculate_metrics. intros H.
  repeat bind_inv H. injection H as <-. simpl.
  eexists. repeat split; eassumption.
Qed.

(** The timings of well-formed successes make lists without [None]. *)
Lemma timed_lists (outputs : list RequestFuncOutput.t) :
  (forall o, In o outputs -> timed o) ->
  exists ttfts tprs : list float,
    map RequestFuncOutput.ttft (filter RequestFuncOutput.success outputs)
      = map Some ttfts /\
    map RequestFuncOutput.latency (filter RequestFuncOutput.success outputs)
      = map Some tprs /\
    List.length tprs
      = List.length (filter RequestFuncOutput.success outputs).
Proof.
  induction outputs as [| o rest IH]; intros Htimed.
  - exists [], []. repeat split.
  - destruct IH as (l1 & l2 & H1 & H2 & H3).
    { intros o' Ho'. apply Htimed. right. exact Ho'. }
    simpl. destruct (RequestFuncOutput.success o) eqn:Hs.
    + destruct (Htimed o (or_introl eq_refl) Hs) as (lat & tt & Hl & Ht).
      exists (tt :: l1), (lat :: l2). simpl.
      rewrite Hl, Ht, H1, H2, H3. repeat split.
    + exists l1, l2. repeat split; assumption.
Qed.

Lemma filter_In_nonempty {A : Type} (f : A -> bool) (l : list A) (a : A) :
  In a l -> f a = true -> filter f l <> [].
Proof.
  intros Hin Hf E.
  assert (H : In a (filter f l)) by (apply filter_In; split; assumption).
  rewrite E in H. destruct H.
Qed.

(** ** The depth of the pairwise sum *)

(** Any depth from the length of the array on gives the same sum: the cuts
    never run out of it. *)
Lemma pairwise_sum_depth (d1 : nat) :
  forall (d2 : nat) (xs : list float),
    List.length xs <= d1 -> List.length xs <= d2 ->
    np.pairwise_sum d1 xs = np.pairwise_sum d2 xs.
Proof.
  induction d1 as [| d1 IH]; intros d2 xs H1 H2.
  - destruct xs; [| simpl in H1; lia]. destruct d2; reflexivity.
  - destruct d2 as [| d2].
    + destruct xs; [reflexivity | simpl in H2; lia].
    + cbn [np.pairwise_sum].
      destruct (List.length xs <? 8)%nat eqn:E8; [reflexivity |].
      destruct (List.length xs <=? 128)%nat eqn:E128; [reflexivity |].
      apply Nat.leb_gt in E128.
      pose proof (Nat.mod_upper_bound (Nat.div (List.length xs) 2) 8
                    ltac:(discriminate)) as Hm8.
      pose proof (Nat.div_mod_eq (List.length xs) 2) as Hd2.
      pose proof (Nat.mod_upper_bound (List.length xs) 2
                    ltac:(discriminate)) as Hm2.
      set (n2 := Nat.div (List.length xs) 2
                 - Nat.modulo (Nat.div (List.length xs) 2) 8) in *.
      assert (Hn2 : 1 <= n2 < List.length xs) by (unfold n2; lia).
      rewrite (IH d2 (firstn n2 xs)), (IH d2 (skipn n2 xs));
        [reflexivity | ..];
        rewrite ?length_firstn, ?length_skipn; lia.
Qed.

(** ** The integers that are converted to [float] *)

Lemma sum_bound (B : Z) (l : list Z) :
  (forall x, In x l -> (0 <= x < B)%Z) ->
  forall a : Z, (a <= fold_left Z.add l a <= a + len l * B)%Z.
Proof.
  induction l as [| x l IH]; intros Hl a; cbn [fold_left].
  - unfold len. simpl. lia.
  - assert (Hx : (0 <= x < B)%Z) by (apply Hl; left; reflexivity).
    assert (Hrest : forall y, In y l -> (0 <= y < B)%Z).
    { intros y Hy. apply Hl. right. exact Hy. }
    specialize (IH Hrest (a + x)%Z). unfold len in *. cbn [List.length].
    rewrite Nat2Z.inj_succ. nia.
Qed.

Lemma tally_from_total_input_bound (input_requests : list Request)
    (tokenizer : Tokenizer) (B : Z) (outputs : list RequestFuncOutput.t) :
  (0 <= B)%Z ->
  (forall r, In r input_requests -> (0 <= item1 r < B)%Z) ->
  forall (i : nat) (st st' : Tally.t),
    tally_from input_requests tokenizer i outputs st = Ok st' ->
    (Tally.total_input st <= Tally.total_input st'
     <= Tally.total_input st + len outputs * B)%Z.
Proof.
  intros HB Hpool.
  induction outputs as [| o rest IH]; cbn [tally_from]; intros i st st' H.
  - injection H as <-. unfold len. simpl. lia.
  - bind_inv H. specialize (IH _ _ _ H). clear H.
    assert (Hstep : (Tally.total_input st <= Tally.total_input v
                     <= Tally.total_input st + B)%Z).
    { unfold tally_step in E.
      destruct (RequestFuncOutput.success o).
      - unfold getitem in E.
        destruct (nth_error input_requests i) as [request |] eqn:Hreq;
          [| discriminate E].
        apply nth_error_In in Hreq. specialize (Hpool request Hreq).
        simpl in E. bind_inv E. injection E as <-. simpl. lia.
      - injection E as <-. simpl. lia. }
    unfold len in *. cbn [List.length]. rewrite Nat2Z.inj_succ. nia.
Qed.

Lemma length_filter_le {A : Type} (f : A -> bool) (l : list A) :
  List.length (filter f l) <= List.length l.
Proof.
  induction l as [| a l IH]; simpl; [lia |].
  destruct (f a); simpl; lia.
Qed.

(** Below [2^63] times [2^63] an [int] is far within the range of a
    double. *)
Lemma fits_double_product (n z : Z) :
  (0 <= n < 2 ^ 63)%Z -> (0 <= z <= n * 2 ^ 63)%Z -> fits_double z.
Proof.
  intros Hn Hz. unfold fits_double.
  assert (Hc : (2 ^ 63 * 2 ^ 63 < 2 ^ 1024 - 2 ^ 970)%Z) by reflexivity.
  remember (2 ^ 63)%Z as b. remember (2 ^ 1024 - 2 ^ 970)%Z as top.
  assert (z <= b * b)%Z by nia. lia.
Qed.

Lemma fits_double_small (z : Z) : (0 <= z < 2 ^ 63)%Z -> fits_double z.
Proof.
  intros Hz. unfold fits_double.
  assert (Hc : (2 ^ 63 < 2 ^ 1024 - 2 ^ 970)%Z) by reflexivity.
  remember (2 ^ 63)%Z as b. remember (2 ^ 1024 - 2 ^ 970)%Z as top. lia.
Qed.

(** ** The aggregator: further statements *)

(** X1. With sizes as a machine holds them, [calculate_metrics] returns a
    report when the pool covers the outcomes, the successes carry their
    timings, one of them has more than one token and the duration is not
    zero; [completed] counts the successes and the list of output lengths
    has one entry per outcome.  Every [int] that was divided by a [float]
    on the way is one that [float] converts without [OverflowError]. *)
Theorem calculate_metrics_returns (input_requests : list Request)
    (outputs : list RequestFuncOutput.t) (dur_s : float)
    (tokenizer : Tokenizer) :
  within_double_range input_requests outputs tokenizer ->
  List.length outputs <= List.length input_requests ->
  (forall o, In o outputs -> timed o) ->
  (exists o, In o outputs /\ samples_tpot tokenizer o = true) ->
  (dur_s =? 0)%float = false ->
  exists m lens,
    calculate_metrics input_requests outputs dur_s tokenizer = Ok (m, lens) /\
    completed m = len (filter RequestFuncOutput.success outputs) /\
    lens = map (output_len_entry tokenizer) outputs /\
    fits_double (completed m) /\
    fits_double (total_input m) /\
    fits_double (total_output m) /\
    (forall o, In o outputs -> samples_tpot tokenizer o = true ->
               fits_double (output_len_of tokenizer o - 1)).
Proof.
  intros (Hn & Hpool & Htok) Hlen Htimed (o & Ho & Hsample) Hdur.
  assert (Hn0 : (0 <= len outputs < 2 ^ 63)%Z).
  { split; [unfold len; lia | exact Hn]. }
  destruct (tally_from_timed input_requests tokenizer outputs 0 Tally.init
              Hlen Htimed) as (st & Hst & Htp & Hc).
  destruct (tally_from_lists input_requests tokenizer outputs 0 Tally.init
              st Hst) as (Hlens & Httfts & Htprs).
  simpl in Htp, Hc, Hlens, Httfts, Htprs.
  destruct (timed_lists outputs Htimed) as (l1 & l2 & H1 & H2 & H3).
  rewrite H1 in Httfts. rewrite H2 in Htprs.
  assert (Hsucc : RequestFuncOutput.success o = true).
  { unfold samples_tpot in Hsample. apply andb_true_iff in Hsample.
    apply Hsample. }
  assert (Hl2 : l2 <> []).
  { intros ->. simpl in H3. symmetry in H3. apply length_zero_iff_nil in H3.
    exact (filter_In_nonempty _ _ _ Ho Hsucc H3). }
  assert (Htpne : Tally.tpots st <> []).
  { intros E. rewrite E in Htp. simpl in Htp. symmetry in Htp.
    apply map_eq_nil in Htp.
    exact (filter_In_nonempty _ _ _ Ho Hsample Htp). }
  destruct (or_zero_asarray l1) as (xs & Hxs & Hxne).
  destruct (reductions_Ok _ _ Hxs Hxne)
    as ((a1 & A1) & (a2 & A2) & (a3 & A3) & (a4 & A4) & A5).
  destruct (A5 90%Z) as (a5 & A90). destruct (A5 99%Z) as (a6 & A99).
  destruct (reductions_Ok (np.List (map Some (Tally.tpots st)))
              (Tally.tpots st) (floats_Some _) Htpne)
    as ((b1 & B1) & (b2 & B2) & (b3 & B3) & (b4 & B4) & B5).
  destruct (B5 90%Z) as (b5 & B90). destruct (B5 99%Z) as (b6 & B99).
  destruct (reductions_Ok (np.List (map Some l2)) l2 (floats_Some _) Hl2)
    as ((c1 & C1) & (c2 & C2) & (c3 & C3) & (c4 & C4) & C5).
  destruct (C5 90%Z) as (c5 & C90). destruct (C5 99%Z) as (c6 & C99).
  assert (Hz : (len outputs =? 0)%Z = false).
  { destruct outputs; [destruct Ho | unfold len; simpl; lia]. }
  unfold calculate_metrics. rewrite Hst. simpl.
  rewrite Httfts, Htprs, A1, A2, A3, A4, A90, A99, B1, B2, B3, B4, B90, B99,
    C1, C2, C3, C4, C90, C99.
  unfold int_truediv, int_div_float. rewrite Hz, Hdur. simpl.
  eexists. eexists. split; [reflexivity |]. simpl.
  split; [exact Hc |]. split; [exact Hlens |].
  split; [| split; [| split]].
  - rewrite Hc. apply fits_double_small. split; [unfold len; lia |].
    pose proof (length_filter_le RequestFuncOutput.success outputs).
    unfold len in *. lia.
  - pose proof (tally_from_total_input_bound input_requests tokenizer
                  (2 ^ 63) outputs ltac:(discriminate) Hpool 0 Tally.init
                  st Hst) as Hb.
    simpl in Hb. apply (fits_double_product (len outputs)); [exact Hn0 |].
    lia.
  - rewrite Hlens. unfold Py.sum.
    assert (Hentries : forall x,
              In x (map (output_len_entry tokenizer) outputs) ->
              (0 <= x < 2 ^ 63)%Z).
    { intros x Hx. apply in_map_iff in Hx. destruct Hx as (o' & <- & Ho').
      unfold output_len_entry.
      destruct (RequestFuncOutput.success o').
      - split; [unfold output_len_of, len; lia | apply Htok; exact Ho'].
      - split; [lia | reflexivity]. }
    pose proof (sum_bound (2 ^ 63) _ Hentries 0%Z) as Hb.
    unfold len in Hb. rewrite length_map in Hb.
    apply (fits_double_product (len outputs)); [exact Hn0 |].
    unfold len. lia.
  - intros o' Ho' Hs'. apply fits_double_small.
    unfold samples_tpot in Hs'. apply andb_true_iff in Hs'.
    destruct Hs' as (_ & Hgt). apply Z.ltb_lt in Hgt.
    specialize (Htok o' Ho'). unfold output_len_of in *. lia.
Qed.

Lemma calculate_metrics_returns_witness :
  exists m lens,
    calculate_metrics Scenario.requests Scenario.outcomes 2
      Scenario.per_char = Ok (m, lens) /\
    completed m = 4%Z /\ lens = [9; 9; 9; 9]%Z.
Proof.
  destruct (calculate_metrics_returns Scenario.requests Scenario.outcomes 2
              Scenario.per_char) as (m & lens & H & Hc & Hl & _).
  - split; [reflexivity |]. split.
    + intros r [<- | [<- | [<- | [<- | []]]]]; split;
        [discriminate | reflexivity | discriminate | reflexivity
        | discriminate | reflexivity | discriminate | reflexivity].
    + intros o [<- | [<- | [<- | [<- | []]]]]; reflexivity.
  - simpl. lia.
  - intros o [<- | [<- | [<- | [<- | []]]]] _;
      eexists; eexists; split; reflexivity.
  - exists (Scenario.succeeded "a b c d e" 1 0.1 10).
    split; [left |]; reflexivity.
  - reflexivity.
  - exists m, lens. split; [exact H |]. split; [exact Hc | exact Hl].
Defined.

(** X2. In a report that is returned, the list of output lengths has one
    entry per outcome, in order: the number of tokens of the generated text
    of a success and 0 for a failure; [total_output] is its sum. *)
Theorem output_lens_per_outcome (input_requests : list Request)
    (outputs : list RequestFuncOutput.t) (dur_s : float)
    (tokenizer : Tokenizer) (m : BenchmarkMetrics) (lens : list Z) :
  calculate_metrics input_requests outputs dur_s tokenizer = Ok (m, lens) ->
  lens = map (output_len_entry tokenizer) outputs /\
  List.length lens = List.length outputs /\
  total_output m = Py.sum (map (output_len_entry tokenizer) outputs).
Proof.
  intros H.
  destruct (calculate_metrics_Ok_lens _ _ _ _ _ H) as (st & Hst & Hl & Ht).
  destruct (tally_from_lists _ _ _ _ _ _ Hst) as (Hlens & _).
  simpl in Hl, Ht, Hlens. rewrite Hlens in Hl, Ht.
  split; [exact Hl |]. split; [| exact Ht].
  rewrite Hl. apply length_map.
Qed.

Lemma output_lens_per_outcome_witness :
  exists m,
    calculate_metrics Scenario.ten_requests Scenario.seven_of_ten 2
      Scenario.per_char = Ok (m, [9; 9; 9; 9; 9; 9; 9; 0; 0; 0]%Z) /\
    total_output m = 63%Z.
Proof.
  destruct (calculate_metrics Scenario.ten_requests Scenario.seven_of_ten 2
              Scenario.per_char) as [[m lens] | e] eqn:E.
  - destruct (output_lens_per_outcome _ _ _ _ _ _ E) as (Hl & _ & Ht).
    exists m. rewrite Hl, Ht. split; reflexivity.
  - vm_compute in E. discriminate E.
Defined.

(** X3. When every successful outcome sits at the position of the request
    that produced it and carries that request's prompt length, the
    [total_input] of a returned report is the sum of the prompt lengths of
    the successful outcomes. *)
Theorem total_input_when_aligned (input_requests : list Request)
    (outputs : list RequestFuncOutput.t) (dur_s : float)
    (tokenizer : Tokenizer) (m : BenchmarkMetrics) (lens : list Z) :
  calculate_metrics input_requests outputs dur_s tokenizer = Ok (m, lens) ->
  (forall j o,
     nth_error outputs j = Some o ->
     RequestFuncOutput.success o = true ->
     exists request,
       nth_error input_requests j = Some request /\
       item1 request = RequestFuncOutput.prompt_len o) ->
  total_input m =
    Py.sum (map RequestFuncOutput.prompt_len
              (filter RequestFuncOutput.success outputs)).
Proof.
  intros H Haligned.
  destruct (calculate_metrics_Ok _ _ _ _ _ H)
    as (st & v & Hst & _ & Hti & _).
  simpl in Hti. rewrite Hti.
  apply (tally_from_total_input _ _ _ _ _ _ Hst).
  exact Haligned.
Qed.

Lemma total_input_when_aligned_witness :
  exists m lens,
    calculate_metrics Scenario.requests Scenario.outcomes 2
      Scenario.five_tokens = Ok (m, lens) /\
    total_input m = 70%Z.
Proof.
  destruct (calculate_metrics Scenario.requests Scenario.outcomes 2
              Scenario.five_tokens) as [[m lens] | e] eqn:E.
  - exists m, lens. split; [reflexivity |].
    rewrite (total_input_when_aligned _ _ _ _ _ _ E); [reflexivity |].
    intros j o Hj _.
    destruct j as [| [| [| [| j]]]]; simpl in Hj;
      try (injection Hj as <-; eexists; split; reflexivity).
    destruct j; discriminate Hj.
  - vm_compute in E. discriminate E.
Defined.

(** X4. With a duration of zero (or minus zero) and at least one outcome,
    all of them well formed and within the pool, [calculate_metrics] raises
    [ZeroDivisionError] in [completed / dur_s]. *)
Theorem zero_duration_ZeroDivisionError (input_requests : list Request)
    (outputs : list RequestFuncOutput.t) (dur_s : float)
    (tokenizer : Tokenizer) :
  outputs <> [] ->
  List.length outputs <= List.length input_requests ->
  (forall o, In o outputs -> timed o) ->
  (dur_s =? 0)%float = true ->
  calculate_metrics input_requests outputs dur_s tokenizer
    = Raise ZeroDivisionError.
Proof.
  intros Hne Hlen Htimed Hdur.
  destruct (tally_from_timed input_requests tokenizer outputs 0 Tally.init
              Hlen Htimed) as (st & Hst & _).
  assert (Hz : (len outputs =? 0)%Z = false).
  { destruct outputs; [destruct (Hne eq_refl) | unfold len; simpl; lia]. }
  unfold calculate_metrics. rewrite Hst. simpl.
  unfold int_truediv, int_div_float. rewrite Hz, Hdur. reflexivity.
Qed.

Lemma zero_duration_ZeroDivisionError_witness :
  calculate_metrics Scenario.requests Scenario.outcomes (-0)
    Scenario.five_tokens = Raise ZeroDivisionError.
Proof.
  apply zero_duration_ZeroDivisionError.
  - discriminate.
  - simpl. lia.
  - intros o [<- | [<- | [<- | [<- | []]]]] _;
      eexists; eexists; split; reflexivity.
  - reflexivity.
Defined.

(** X5. If the outcome right behind the end of the pool is a success (and
    the outcomes are well formed), [calculate_metrics] raises [IndexError]
    in [input_requests[i][1]]. *)
Theorem success_beyond_pool_IndexError (input_requests : list Request)
    (outputs : list RequestFuncOutput.t) (dur_s : float)
    (tokenizer : Tokenizer) (o : RequestFuncOutput.t) :
  nth_error outputs (List.length input_requests) = Some o ->
  RequestFuncOutput.success o = true ->
  (forall o', In o' outputs -> timed o') ->
  calculate_metrics input_requests outputs dur_s tokenizer
    = Raise IndexError.
Proof.
  intros Hnth Hs Htimed. unfold calculate_metrics.
  rewrite (tally_from_IndexError input_requests tokenizer outputs 0
             Tally.init o); try assumption.
  - reflexivity.
  - lia.
  - rewrite Nat.sub_0_r. exact Hnth.
Qed.

Lemma success_beyond_pool_IndexError_witness :
  calculate_metrics (firstn 3 Scenario.requests) Scenario.outcomes 2
    Scenario.five_tokens = Raise IndexError.
Proof.
  apply (success_beyond_pool_IndexError (firstn 3 Scenario.requests)
           Scenario.outcomes 2 Scenario.five_tokens
           (Scenario.succeeded "a b c d e" 2 0.2 30)).
  - reflexivity.
  - reflexivity.
  - intros o [<- | [<- | [<- | [<- | []]]]] _;
      eexists; eexists; split; reflexivity.
Defined.

(** ** The scheduler and the threads: further statements *)

(** X6. Whatever its environment does (a sleep that fails, an unknown
    backend, a draw that raises), thread [i] of [main] sends inputs made of
    a prefix of its own slice of the pool and nothing else. *)
Theorem thread_run_sends_own_slice (env : Env.t) (args : Args.t)
    (api_url : string) (tokenizer : Tokenizer)
    (input_requests : list Request) (i : nat) (ramp_up_time : float) :
  exists d,
    d <= List.length (thread_requests args input_requests i) /\
    World.sent
      (World.log
         (snd (thread_run env args api_url tokenizer input_requests i
                 ramp_up_time World.init)))
      = map (make_input (Args.model args) api_url (Args.best_of args)
               (Args.use_beam_search args))
          (firstn d (thread_requests args input_requests i)).
Proof.
  unfold thread_run. apply thread_sends_own_requests.
Qed.

Lemma sleeps_app (l1 l2 : list World.event) :
  sleeps (l1 ++ l2) = sleeps l1 ++ sleeps l2.
Proof.
  induction l1 as [| e l1 IH]; simpl.
  - reflexivity.
  - destruct e; simpl; rewrite IH; reflexivity.
Qed.

Section FiniteRate.

Variable env : Env.t.
Variable request_rate : float.

Hypothesis Hfinite : (request_rate =? infinity)%float = false.

(** At a finite rate a wait that does not raise is one draw followed by
    one sleep. *)
Lemma after_yield_one_sleep (w : World.t) :
  paces env request_rate ->
  exists w' x,
    after_yield env request_rate w = (Ok tt, w') /\
    World.draws w' = S (World.draws w) /\
    sleeps (World.log w') = sleeps (World.log w) ++ [x].
Proof.
  intros Hpaces. specialize (Hpaces w). revert Hpaces.
  unfold after_yield. rewrite Hfinite.
  unfold IO.bind, IO.lift, float_div.
  destruct (request_rate =? 0)%float; simpl; [discriminate |].
  unfold IO.exponential, IO.sleep, IO.logged.
  destruct (Env.exponential env (World.draws w) (1 / request_rate))
    as [x | e]; simpl; [| discriminate].
  destruct (Env.sleep env x) as [[] | e]; simpl; [| discriminate].
  intros _. eexists. exists x.
  split; [reflexivity |]. simpl. rewrite sleeps_app. split; reflexivity.
Qed.

Lemma after_yield_async_one_sleep (w : World.t) :
  paces_async env request_rate ->
  exists w' x,
    after_yield_async env request_rate w = (Ok tt, w') /\
    World.draws w' = S (World.draws w) /\
    sleeps (World.log w') = sleeps (World.log w) ++ [x].
Proof.
  intros Hpaces. specialize (Hpaces w). revert Hpaces.
  unfold after_yield_async. rewrite Hfinite.
  unfold IO.bind, IO.lift, float_div.
  destruct (request_rate =? 0)%float; simpl; [discriminate |].
  unfold IO.exponential, IO.asyncio_sleep, IO.logged.
  destruct (Env.exponential env (World.draws w) (1 / request_rate))
    as [x | e]; simpl; [| discriminate].
  destruct (Env.asyncio_sleep env x) as [[] | e]; simpl; [| discriminate].
  intros _. eexists. exists x.
  split; [reflexivity |]. simpl. rewrite sleeps_app. split; reflexivity.
Qed.

(** A generator whose resumption is one draw and one sleep, run to
    exhaustion, has drawn and slept once per item. *)
Lemma exhaust_counts {A : Type} (resume : IO.t unit) (l : list A) :
  (forall w, exists w' x,
     resume w = (Ok tt, w') /\
     World.draws w' = S (World.draws w) /\
     sleeps (World.log w') = sleeps (World.log w) ++ [x]) ->
  forall acc w,
    exists w',
      for_each (map (fun a => (a, resume)) l)
        (fun a acc => IO.ret (Continue (acc ++ [a]))) acc w
        = (Ok (acc ++ l), w') /\
      World.draws w' = World.draws w + List.length l /\
      List.length (sleeps (World.log w'))
        = List.length (sleeps (World.log w)) + List.length l.
Proof.
  intros Hres. induction l as [| a l IH]; intros acc w; simpl.
  - exists w. rewrite app_nil_r. repeat split; lia.
  - unfold IO.bind, IO.ret. simpl.
    destruct (Hres w) as (w1 & x & Hrun & Hd & Hs). rewrite Hrun.
    destruct (IH (acc ++ [a]) w1) as (w' & Hrun' & Hd' & Hs').
    exists w'. unfold IO.bind, IO.ret in Hrun'. rewrite Hrun'.
    rewrite <- app_assoc. split; [reflexivity |].
    rewrite Hd', Hd, Hs', Hs, length_app. simpl. split; lia.
Qed.

End FiniteRate.

(** X7. At a finite rate, when the waits of the scheduler do not raise, a
    scheduler run to exhaustion over [N] requests draws [N] intervals and
    sleeps [N] times: one wait follows every request, the last one
    included.  So it is for [get_request] and for [get_request_async]. *)
Theorem one_wait_per_request (env : Env.t) (input_requests : list Request)
    (request_rate : float) (w : World.t) :
  (request_rate =? infinity)%float = false ->
  (paces env request_rate ->
   exists w',
     exhaust (get_request env input_requests request_rate) w
       = (Ok input_requests, w') /\
     World.draws w' = World.draws w + List.length input_requests /\
     List.length (sleeps (World.log w'))
       = List.length (sleeps (World.log w)) + List.length input_requests) /\
  (paces_async env request_rate ->
   exists w',
     exhaust (get_request_async env input_requests request_rate) w
       = (Ok input_requests, w') /\
     World.draws w' = World.draws w + List.length input_requests /\
     List.length (sleeps (World.log w'))
       = List.length (sleeps (World.log w)) + List.length input_requests).
Proof.
  intros Hfin. unfold exhaust, get_request, get_request_async.
  split; intros Hpaces.
  - apply (exhaust_counts (after_yield env request_rate) input_requests
             (fun w0 => after_yield_one_sleep env request_rate Hfin w0
                          Hpaces) [] w).
  - apply (exhaust_counts (after_yield_async env request_rate)
             input_requests
             (fun w0 => after_yield_async_one_sleep env request_rate Hfin w0
                          Hpaces) [] w).
Qed.

Lemma one_wait_per_request_witness :
  exists w',
    exhaust (get_request Scenario.host Scenario.pool 2) World.init
      = (Ok Scenario.pool, w') /\
    World.draws w' = 4 /\
    List.length (sleeps (World.log w')) = 4.
Proof.
  destruct (one_wait_per_request Scenario.host Scenario.pool 2 World.init
              eq_refl) as (H & _).
  destruct H as (w' & Hrun & Hd & Hs).
  - intros w. reflexivity.
  - exists w'. split; [exact Hrun |]. split; [exact Hd | exact Hs].
Defined.

(** X8. A stop time that is not positive (zero, the default; negative; NaN)
    is no stop time: the thread sends every request of its list, whatever
    the clock says, and returns all the answers in order. *)
Theorem no_stop_time_sends_all (env : Env.t) (thread_stop_time : float)
    (thread_id : Z) (backend api_url model_id : string)
    (tokenizer : Tokenizer) (input_requests : list Request) (best_of : Z)
    (use_beam_search : bool) (request_rate : float)
    (request_func : Env.request_func) :
  (0 <? thread_stop_time)%float = false ->
  Env.REQUEST_FUNCS env backend = Some request_func ->
  paces env request_rate ->
  thread_id <> (-1)%Z ->
  let inputs :=
    map (make_input model_id api_url best_of use_beam_search)
      input_requests in
  exists w',
    benchmark env thread_stop_time backend api_url model_id tokenizer
      input_requests best_of use_beam_search request_rate thread_id
      World.init
      = (Ok (Outputs (answers request_func 0 inputs)), w') /\
    World.sent (World.log w') = inputs.
Proof.
  intros Hstop Hf Hp Htid inputs.
  destruct (benchmark_outputs env thread_stop_time thread_id backend api_url
              model_id tokenizer input_requests best_of use_beam_search
              request_rate request_func World.init Hf Hp Htid eq_refl
              eq_refl) as (w' & Hrun & Hsent).
  unfold dispatched in Hrun, Hsent. rewrite Hstop in Hrun, Hsent.
  rewrite firstn_all in Hrun, Hsent.
  exists w'. split; [exact Hrun | exact Hsent].
Qed.

Lemma no_stop_time_sends_all_witness :
  exists w',
    benchmark (Scenario.workers 0) nan "vllm" "u" "m" Scenario.five_tokens
      Scenario.pool 1 false infinity 0 World.init
      = (Ok (Outputs
               (answers Scenario.echo 0
                  (map (make_input "m" "u" 1 false) Scenario.pool))), w').
Proof.
  destruct (no_stop_time_sends_all (Scenario.workers 0) nan 0 "vllm" "u" "m"
              Scenario.five_tokens Scenario.pool 1 false infinity
              Scenario.echo) as (w' & Hrun & _).
  - reflexivity.
  - reflexivity.
  - intros w. reflexivity.
  - discriminate.
  - exists w'. exact Hrun.
Defined.

(** X9. Whatever the size of the pool, thread [i] gets the (at most) [k]
    requests from position [i * k] on, where [k] is [args.num_prompts]; the
    slices of [N] threads together are the first [N * k] requests of the
    pool, so later requests are never sent; and over a pool of at most [k]
    requests thread 0 gets them all and every other thread gets none. *)
Theorem slices_of_any_pool (args : Args.t) (input_requests : list Request)
    (N k : nat) :
  Args.num_prompts args = Z.of_nat k ->
  (forall i,
     thread_requests args input_requests i
       = firstn k (skipn (i * k) input_requests)) /\
  List.concat (map (thread_requests args input_requests) (seq 0 N))
    = firstn (N * k) input_requests /\
  (List.length input_requests <= k ->
   thread_requests args input_requests 0 = input_requests /\
   forall i, 0 < i -> thread_requests args input_requests i = []).
Proof.
  intros Hk.
  assert (Hslice : forall i,
            thread_requests args input_requests i
              = firstn k (skipn (i * k) input_requests)).
  { intros i. unfold thread_requests, slice, clip, len. rewrite Hk.
    assert (H1 : (Z.of_nat i * Z.of_nat k <? 0)%Z = false)
      by (apply Z.ltb_ge, Z.mul_nonneg_nonneg; lia).
    assert (H2 : ((Z.of_nat i + 1) * Z.of_nat k <? 0)%Z = false)
      by (apply Z.ltb_ge, Z.mul_nonneg_nonneg; lia).
    rewrite H1, H2.
    destruct (le_lt_dec (List.length input_requests) (i * k)) as [Hout | Hin].
    - replace (Z.to_nat
                 (Z.min ((Z.of_nat i + 1) * Z.of_nat k)
                    (Z.of_nat (List.length input_requests))
                  - Z.min (Z.of_nat i * Z.of_nat k)
                      (Z.of_nat (List.length input_requests))))
        with 0 by nia.
      rewrite (skipn_all2 input_requests Hout), firstn_nil. reflexivity.
    - replace (Z.to_nat
                 (Z.min (Z.of_nat i * Z.of_nat k)
                    (Z.of_nat (List.length input_requests))))
        with (i * k) by nia.
      destruct (le_lt_dec ((i + 1) * k) (List.length input_requests))
        as [Hfull | Hshort].
      + f_equal. nia.
      + rewrite !firstn_all2; [reflexivity | |];
          rewrite length_skipn; nia. }
  split; [exact Hslice |]. split.
  - rewrite (map_ext _ _ Hslice). apply concat_chunks.
  - intros Hsmall. split.
    + rewrite Hslice. simpl. apply firstn_all2. exact Hsmall.
    + intros i Hi. rewrite Hslice.
      rewrite (skipn_all2 input_requests); [apply firstn_nil | nia].
Qed.

Lemma slices_of_any_pool_witness :
  thread_requests Scenario.args (firstn 3 Scenario.pool) 1
    = [("p2"%string, 30, 5)%Z] /\
  thread_requests Scenario.args (firstn 2 Scenario.pool) 1 = [].
Proof.
  split.
  - destruct (slices_of_any_pool Scenario.args (firstn 3 Scenario.pool) 2 2
                eq_refl) as (H & _).
    rewrite H. reflexivity.
  - destruct (slices_of_any_pool Scenario.args (firstn 2 Scenario.pool) 2 2
                eq_refl) as (_ & _ & H).
    destruct H as (_ & H); [simpl; lia |]. apply H. lia.
Defined.

(** With a thread count that is not zero every thread object is built. *)
Lemma start_threads_Ok (workers : nat -> Env.t) (args : Args.t)
    (api_url : string) (tokenizer : Tokenizer)
    (input_requests : list Request) (ids : list nat) :
  Args.num_threads args <> 0%Z ->
  start_threads workers args api_url tokenizer input_requests ids
    = Ok (map (fun i =>
                 thread_run (workers i) args api_url tokenizer
                   input_requests i (ramp_up_of args i)) ids).
Proof.
  intros Hn. induction ids as [| i ids IH]; simpl.
  - reflexivity.
  - rewrite (thread_ramp_up_Ok args i Hn). simpl. rewrite IH. reflexivity.
Qed.

(** X10. In threaded mode a backend missing from [REQUEST_FUNCS] does not
    surface as the [ValueError] that [benchmark] raises: the thread dies,
    [self.outputs] is never assigned, and [main] raises [AttributeError]
    when it collects the results. *)
Theorem unknown_backend_AttributeError (host : Env.t)
    (workers : nat -> Env.t) (args : Args.t) (api_url : string)
    (tokenizer : Tokenizer) (input_requests : list Request) :
  (0 < Args.num_threads args)%Z ->
  Args.enable_async args = false ->
  Env.REQUEST_FUNCS (workers 0) (Args.backend args) = None ->
  main host workers args api_url tokenizer input_requests
    = Raise AttributeError.
Proof.
  intros Hpos Hsync Hnone. unfold main.
  assert (Hle : (Args.num_threads args <=? 0)%Z = false) by lia.
  rewrite Hle, Hsync. unfold run_threads.
  rewrite start_threads_Ok by lia.
  destruct (Z.to_nat (Args.num_threads args)) as [| n] eqn:Hn; [lia |].
  simpl. unfold benchThread_get_result at 1.
  assert (Hdies : exists e,
            fst (thread_run (workers 0) args api_url tokenizer
                   input_requests 0 (ramp_up_of args 0) World.init)
              = Raise e).
  { unfold thread_run, benchThread_run, IO.bind at 1, IO.sleep, IO.logged.
    simpl.
    destruct (Env.sleep (workers 0) (ramp_up_of args 0)) as [[] | e].
    - unfold benchmark, IO.bind at 1, IO.lift. rewrite Hnone.
      exists ValueError. reflexivity.
    - exists e. reflexivity. }
  destruct Hdies as (e & He). rewrite He. reflexivity.
Qed.

Lemma unknown_backend_AttributeError_witness :
  main Scenario.host (fun _ => Cases.unplugged Scenario.ticking)
    Scenario.args "u" Scenario.five_tokens Scenario.pool
    = Raise AttributeError.
Proof.
  apply unknown_backend_AttributeError; reflexivity.
Defined.

(** ** [benchmark_async] *)

Lemma after_yield_async_frame (env : Env.t) (request_rate : float)
    (w : World.t) :
  World.clock_reads (snd (after_yield_async env request_rate w))
    = World.clock_reads w /\
  World.calls (snd (after_yield_async env request_rate w)) = World.calls w /\
  World.sent (World.log (snd (after_yield_async env request_rate w)))
    = World.sent (World.log w).
Proof.
  unfold after_yield_async.
  destruct (request_rate =? infinity)%float; simpl.
  - repeat split.
  - unfold IO.bind, IO.lift, float_div.
    destruct (request_rate =? 0)%float; simpl.
    + repeat split.
    + destruct (Env.exponential env (World.draws w) (1 / request_rate));
        simpl.
      * rewrite sent_app, app_nil_r. repeat split.
      * repeat split.
Qed.

Section AsyncLoop.

Variable env : Env.t.
Variable request_func : Env.request_func.
Variables model_id api_url : string.
Variable best_of : Z.
Variable use_beam_search : bool.
Variable request_rate : float.

Hypothesis Hpaces : paces_async env request_rate.

Let input_of : Request -> RequestFuncInput.t :=
  make_input model_id api_url best_of use_beam_search.

(** The loop of [benchmark_async] creates one task per request, in order,
    and reads no clock. *)
Lemma spawn_loop (input_requests : list Request) :
  forall (tasks : list (unit -> RequestFuncOutput.t)) (w : World.t),
    exists tasks' w',
      for_each (get_request_async env input_requests request_rate)
        (fun request tasks =>
           IO.bind (IO.create_task request_func (input_of request))
             (fun task => IO.ret (Continue (tasks ++ [task]))))
        tasks w
        = (Ok tasks', w') /\
      gather tasks'
        = gather tasks
          ++ answers request_func (World.calls w)
               (map input_of input_requests) /\
      World.sent (World.log w')
        = World.sent (World.log w) ++ map input_of input_requests /\
      World.clock_reads w' = World.clock_reads w.
Proof.
  induction input_requests as [| request rest IH]; intros tasks w.
  - exists tasks, w. simpl. rewrite !app_nil_r. repeat split.
  - simpl. unfold IO.bind at 1. unfold IO.bind at 1.
    unfold IO.create_task, IO.ret at 1. simpl.
    unfold IO.bind at 1.
    match goal with
    | |- context [after_yield_async env request_rate ?w1] =>
        pose proof (Hpaces w1) as Hp;
        pose proof (after_yield_async_frame env request_rate w1) as Hf;
        destruct (after_yield_async env request_rate w1) as [r w2]
    end.
    simpl in Hp, Hf. subst r. destruct Hf as (Hc & Hk & Hs).
    destruct (IH (tasks ++ [fun _ => request_func (World.calls w)
                                       (input_of request)]) w2)
      as (tasks' & w' & Hrun & Hg & Hsent & Hreads).
    exists tasks', w'. split; [exact Hrun |]. split; [| split].
    + rewrite Hg, Hk. unfold gather. rewrite map_app, <- app_assoc.
      reflexivity.
    + rewrite Hsent, Hs, sent_app, <- app_assoc. reflexivity.
    + rewrite Hreads, Hc. reflexivity.
Qed.

End AsyncLoop.

(** X11. With a known backend and waits that do not fail, [benchmark_async]
    sends every request once, in the order of the pool, and hands
    [calculate_metrics] one outcome per request in that same order,
    together with the time between its two clock readings. *)
Theorem async_one_outcome_per_request (env : Env.t)
    (backend api_url model_id : string) (tokenizer : Tokenizer)
    (input_requests : list Request) (best_of : Z) (use_beam_search : bool)
    (request_rate : float) (request_func : Env.request_func) :
  Env.ASYNC_REQUEST_FUNCS env backend = Some request_func ->
  paces_async env request_rate ->
  let inputs :=
    map (make_input model_id api_url best_of use_beam_search)
      input_requests in
  let outputs := answers request_func 0 inputs in
  let benchmark_duration :=
    (Env.perf_counter env 1 - Env.perf_counter env 0)%float in
  List.length outputs = List.length input_requests /\
  exists w',
    benchmark_async env backend api_url model_id tokenizer input_requests
      best_of use_beam_search request_rate World.init
      = (Py.bind
           (calculate_metrics input_requests outputs benchmark_duration
              tokenizer)
           (fun r =>
              Ok (dump_metrics_and_results (fst r) (snd r) outputs
                    benchmark_duration)),
         w') /\
    World.sent (World.log w') = inputs.
Proof.
  intros Hf Hp inputs outputs benchmark_duration.
  split.
  { unfold outputs, inputs. rewrite answers_length, length_map.
    reflexivity. }
  unfold benchmark_async, IO.bind at 1, IO.lift. rewrite Hf.
  unfold IO.bind at 1, IO.perf_counter at 1. simpl.
  unfold IO.bind at 1.
  match goal with
  | |- context [for_each ?g ?b ?o ?w] =>
      destruct (spawn_loop env request_func model_id api_url best_of
                  use_beam_search request_rate Hp input_requests o w)
        as (tasks & w' & Hrun & Hg & Hsent & Hreads)
  end.
  rewrite Hrun. simpl in Hg, Hsent, Hreads. rewrite Hg.
  unfold IO.bind at 1, IO.perf_counter. rewrite Hreads.
  fold inputs outputs benchmark_duration.
  unfold IO.bind, IO.lift, IO.ret.
  destruct (calculate_metrics input_requests outputs benchmark_duration
              tokenizer) as [r | e]; simpl;
    eexists; (split; [reflexivity | exact Hsent]).
Qed.

Lemma async_one_outcome_per_request_witness :
  exists report w',
    benchmark_async Scenario.host "vllm" "u" "m" Scenario.five_tokens
      Scenario.pool 1 false 2 World.init = (Ok report, w') /\
    Report.input_lens report = [10; 20; 30; 40]%Z /\
    Report.total_input_tokens report = 100%Z.
Proof.
  destruct (async_one_outcome_per_request Scenario.host "vllm" "u" "m"
              Scenario.five_tokens Scenario.pool 1 false 2 Scenario.echo)
    as (_ & w' & Hrun & _).
  - reflexivity.
  - intros w. reflexivity.
  - eexists. exists w'. split; [exact Hrun |]. split; reflexivity.
Defined.

(** ** [sample_sharegpt_requests] *)

Section ShareGPT.

Variable tokenizer : Tokenizer.
Variable num_requests : Z.
Variable fixed_output_len : option Z.

(** One turn of the loop, in terms of the request a pair gives. *)
Lemma sharegpt_filter_cons (turns : string * string)
    (rest : list (string * string)) (filtered : list Request) :
  sharegpt_filter tokenizer num_requests fixed_output_len (turns :: rest)
    filtered
  = if (len filtered =? num_requests)%Z then filtered
    else
      match sharegpt_request tokenizer fixed_output_len turns with
      | Some request =>
          sharegpt_filter tokenizer num_requests fixed_output_len rest
            (filtered ++ [request])
      | None =>
          sharegpt_filter tokenizer num_requests fixed_output_len rest
            filtered
      end.
Proof.
  destruct turns as [prompt completion]. simpl.
  destruct (len filtered =? num_requests)%Z; [reflexivity |].
  unfold sharegpt_request. simpl.
  set (output_len := match fixed_output_len with
                     | Some n => n
                     | None => len (tokenizer completion)
                     end).
  destruct (len (tokenizer prompt) <? 4)%Z eqn:E1;
    destruct (output_len <? 4)%Z eqn:E2;
    destruct (1024 <? len (tokenizer prompt))%Z eqn:E3;
    destruct (2048 <? len (tokenizer prompt) + output_len)%Z eqn:E4;
    destruct (4 <=? len (tokenizer prompt))%Z eqn:E5;
    destruct (4 <=? output_len)%Z eqn:E6;
    destruct (len (tokenizer prompt) <=? 1024)%Z eqn:E7;
    destruct (len (tokenizer prompt) + output_len <=? 2048)%Z eqn:E8;
    simpl; try reflexivity; lia.
Qed.

(** The loop appends the requests within bounds until it holds
    [num_requests] of them; a count it has already passed never stops
    it. *)
Lemma sharegpt_filter_firstn (dataset : list (string * string)) :
  forall filtered : list Request,
    sharegpt_filter tokenizer num_requests fixed_output_len dataset filtered
    = if (num_requests <? len filtered)%Z
      then filtered ++ sharegpt_kept tokenizer fixed_output_len dataset
      else filtered
           ++ firstn (Z.to_nat (num_requests - len filtered))
                (sharegpt_kept tokenizer fixed_output_len dataset).
Proof.
  induction dataset as [| turns rest IH]; intros filtered.
  - simpl. rewrite firstn_nil, app_nil_r.
    destruct (num_requests <? len filtered)%Z; reflexivity.
  - rewrite sharegpt_filter_cons. simpl sharegpt_kept.
    destruct (len filtered =? num_requests)%Z eqn:Heq.
    + apply Z.eqb_eq in Heq.
      assert (Hlt : (num_requests <? len filtered)%Z = false) by lia.
      rewrite Hlt. replace (num_requests - len filtered)%Z with 0%Z by lia.
      simpl. rewrite app_nil_r. reflexivity.
    + apply Z.eqb_neq in Heq.
      destruct (sharegpt_request tokenizer fixed_output_len turns)
        as [request |].
      * rewrite IH.
        assert (Hlen : len (filtered ++ [request]) = (len filtered + 1)%Z).
        { unfold len. rewrite length_app. simpl. lia. }
        rewrite Hlen.
        destruct (num_requests <? len filtered)%Z eqn:Hlt.
        -- assert (Hlt' : (num_requests <? len filtered + 1)%Z = true)
             by lia.
           rewrite Hlt', <- app_assoc. reflexivity.
        -- assert (Hlt' : (num_requests <? len filtered + 1)%Z = false)
             by lia.
           rewrite Hlt', <- app_assoc.
           replace (Z.to_nat (num_requests - len filtered))
             with (S (Z.to_nat (num_requests - (len filtered + 1))))
             by lia.
           reflexivity.
      * apply IH.
Qed.

(** A request that was kept comes from a pair and is within bounds. *)
Lemma sharegpt_kept_In (dataset : list (string * string))
    (request : Request) :
  In request (sharegpt_kept tokenizer fixed_output_len dataset) ->
  exists turns,
    In turns dataset /\
    sharegpt_request tokenizer fixed_output_len turns = Some request.
Proof.
  induction dataset as [| turns rest IH]; simpl; intros Hin.
  - destruct Hin.
  - destruct (sharegpt_request tokenizer fixed_output_len turns)
      as [r |] eqn:E.
    + destruct Hin as [<- | Hin].
      * exists turns. split; [left; reflexivity | exact E].
      * destruct (IH Hin) as (t & Ht & Et).
        exists t. split; [right; exact Ht | exact Et].
    + destruct (IH Hin) as (t & Ht & Et).
      exists t. split; [right; exact Ht | exact Et].
Qed.

End ShareGPT.

Lemma In_firstn {A : Type} (n : nat) (l : list A) (x : A) :
  In x (firstn n l) -> In x l.
Proof.
  intros H. rewrite <- (firstn_skipn n l). apply in_or_app. left. exact H.
Qed.

Lemma first_two_turns_In (dataset : list Conversation)
    (prompt completion : string) :
  In (prompt, completion) (first_two_turns dataset) ->
  exists more, In (prompt :: completion :: more) dataset.
Proof.
  unfold first_two_turns. intros Hin.
  apply in_map_iff in Hin. destruct Hin as (data & Heq & Hin).
  apply filter_In in Hin. destruct Hin as (Hin & Hlen).
  destruct data as [| p [| c more]]; unfold len in Hlen; simpl in Hlen;
    try lia.
  simpl in Heq. injection Heq as <- <-. exists more. exact Hin.
Qed.

(** X12. [sample_sharegpt_requests] raises [ValueError] for a fixed output
    length below 4 and otherwise returns, in shuffled order, the first
    [num_requests] requests whose lengths are within bounds: all of them
    when there are fewer, and all of them when [num_requests] is
    negative. *)
Theorem sample_sharegpt_first_kept
    (shuffle : list (string * string) -> list (string * string))
    (dataset : list Conversation) (num_requests : Z) (tokenizer : Tokenizer)
    (fixed_output_len : option Z) :
  let kept :=
    sharegpt_kept tokenizer fixed_output_len
      (shuffle (first_two_turns dataset)) in
  sample_sharegpt_requests shuffle dataset num_requests tokenizer
    fixed_output_len
  = if match fixed_output_len with
       | Some n => (n <? 4)%Z
       | None => false
       end
    then Raise ValueError
    else if (num_requests <? 0)%Z then Ok kept
    else Ok (firstn (Z.to_nat num_requests) kept).
Proof.
  intros kept. unfold sample_sharegpt_requests.
  destruct (match fixed_output_len with
            | Some n => (n <? 4)%Z
            | None => false
            end); [reflexivity |].
  rewrite sharegpt_filter_firstn. unfold len. simpl.
  rewrite Z.sub_0_r. fold kept.
  destruct (num_requests <? 0)%Z; reflexivity.
Qed.

(** X13. Every request that [sample_sharegpt_requests] returns is made of
    the first two turns of a conversation of the dataset (if shuffling adds
    nothing): its prompt is the first turn, its prompt length the number
    of tokens of the prompt, between 4 and 1024; its output length is the
    fixed one if given, else the number of tokens of the second turn, at
    least 4, and the two lengths sum to at most 2048.  No more than
    [num_requests] are returned when that is not negative. *)
Theorem sample_sharegpt_within_bounds
    (shuffle : list (string * string) -> list (string * string))
    (dataset : list Conversation) (num_requests : Z) (tokenizer : Tokenizer)
    (fixed_output_len : option Z) (requests : list Request) :
  (forall l x, In x (shuffle l) -> In x l) ->
  sample_sharegpt_requests shuffle dataset num_requests tokenizer
    fixed_output_len = Ok requests ->
  ((0 <= num_requests)%Z -> (len requests <= num_requests)%Z) /\
  forall prompt prompt_len output_len,
    In (prompt, prompt_len, output_len) requests ->
    (exists completion more,
       In (prompt :: completion :: more) dataset /\
       output_len = match fixed_output_len with
                    | Some n => n
                    | None => len (tokenizer completion)
                    end) /\
    prompt_len = len (tokenizer prompt) /\
    (4 <= prompt_len <= 1024)%Z /\
    (4 <= output_len)%Z /\
    (prompt_len + output_len <= 2048)%Z.
Proof.
  intros Hshuffle H. rewrite sample_sharegpt_first_kept in H.
  destruct (match fixed_output_len with
            | Some n => (n <? 4)%Z
            | None => false
            end); [discriminate H |].
  set (kept := sharegpt_kept tokenizer fixed_output_len
                 (shuffle (first_two_turns dataset))) in H.
  assert (Hsub : forall r, In r requests -> In r kept).
  { intros r Hr.
    destruct (num_requests <? 0)%Z; injection H as <-.
    - exact Hr.
    - apply (In_firstn _ _ _ Hr). }
  split.
  - intros Hpos. assert (Hneg : (num_requests <? 0)%Z = false) by lia.
    rewrite Hneg in H. injection H as <-.
    unfold len. pose proof (firstn_le_length (Z.to_nat num_requests) kept).
    lia.
  - intros prompt prompt_len output_len Hin.
    destruct (sharegpt_kept_In _ _ _ _ (Hsub _ Hin))
      as ((p & completion) & Hturns & Hreq).
    unfold sharegpt_request in Hreq. simpl in Hreq.
    set (out := match fixed_output_len with
                | Some n => n
                | None => len (tokenizer completion)
                end) in Hreq.
    destruct ((4 <=? len (tokenizer p))%Z && (4 <=? out)%Z
              && (len (tokenizer p) <=? 1024)%Z
              && (len (tokenizer p) + out <=? 2048)%Z) eqn:Hb;
      [| discriminate Hreq].
    injection Hreq as -> <- <-.
    apply andb_true_iff in Hb. destruct Hb as (Hb & H4).
    apply andb_true_iff in Hb. destruct Hb as (Hb & H3).
    apply andb_true_iff in Hb. destruct Hb as (H1 & H2).
    apply Hshuffle in Hturns.
    destruct (first_two_turns_In _ _ _ Hturns) as (more & Hdata).
    split.
    + exists completion, more. split; [exact Hdata | reflexivity].
    + repeat split; lia.
Qed.

Lemma sample_sharegpt_within_bounds_witness :
  (len [("abcd"%string, 4, 4); ("hello"%string, 5, 5)]%Z <= 2)%Z /\
  (4 <= 5 <= 1024)%Z.
Proof.
  destruct (sample_sharegpt_within_bounds Cases.no_shuffle Cases.dataset 2
              Cases.tokens None
              [("abcd"%string, 4, 4); ("hello"%string, 5, 5)]%Z)
    as (Hcount & Hbounds).
  - intros l x Hx. exact Hx.
  - reflexivity.
  - split; [apply Hcount; lia |].
    destruct (Hbounds "hello"%string 5%Z 5%Z) as (_ & _ & H & _).
    + right. left. reflexivity.
    + exact H.
Defined.

(** ** Dictionaries *)

Lemma dict_get_set_same (d : dict) (key : string) (value : Json.t) :
  dict_get (dict_set d key value) key = Some value.
Proof.
  induction d as [| [k v] rest IH]; simpl.
  - rewrite String.eqb_refl. reflexivity.
  - destruct (String.eqb k key) eqn:E; simpl.
    + rewrite String.eqb_refl. reflexivity.
    + rewrite E. exact IH.
Qed.

Lemma dict_get_set_other (d : dict) (key key' : string) (value : Json.t) :
  key <> key' ->
  dict_get (dict_set d key value) key' = dict_get d key'.
Proof.
  intros Hne. induction d as [| [k v] rest IH]; simpl.
  - apply String.eqb_neq in Hne. rewrite Hne. reflexivity.
  - destruct (String.eqb k key) eqn:E; simpl.
    + apply String.eqb_eq in E. subst k.
      apply String.eqb_neq in Hne. rewrite Hne. reflexivity.
    + destruct (String.eqb k key'); [reflexivity | exact IH].
Qed.

(** Merging leaves alone the keys the other dictionary does not have. *)
Lemma dict_merge_other (other : dict) :
  forall (d : dict) (key : string),
    ~ In key (map fst other) ->
    dict_get (dict_merge d other) key = dict_get d key.
Proof.
  unfold dict_merge.
  induction other as [| [k v] rest IH]; simpl; intros d key Hnot.
  - reflexivity.
  - rewrite IH by tauto. apply dict_get_set_other. tauto.
Qed.

(** Merging gives every key of the other dictionary the other's value. *)
Lemma dict_merge_wins (other : dict) :
  forall (d : dict) (key : string) (value : Json.t),
    NoDup (map fst other) ->
    In (key, value) other ->
    dict_get (dict_merge d other) key = Some value.
Proof.
  induction other as [| [k v] rest IH]; simpl; intros d key value Hnd Hin.
  - destruct Hin.
  - inversion Hnd as [| ? ? Hnotin Hnd']; subst.
    destruct Hin as [Heq | Hin].
    + injection Heq as -> ->.
      change (dict_merge d ((key, value) :: rest))
        with (dict_merge (dict_set d key value) rest).
      rewrite (dict_merge_other rest _ key Hnotin).
      apply dict_get_set_same.
    + change (dict_merge d ((k, v) :: rest))
        with (dict_merge (dict_set d k v) rest).
      apply IH; assumption.
Qed.

Lemma report_items_keys (r : Report.t) :
  map fst (report_items r)
  = ["duration"; "completed"; "total_input_tokens"; "total_output_tokens";
     "request_throughput"; "input_throughput"; "output_throughput";
     "mean_ttft_ms"; "median_ttft_ms"; "p99_ttft_ms"; "mean_tpot_ms";
     "median_tpot_ms"; "p99_tpot_ms"; "input_lens"; "output_lens"; "ttfts";
     "itls"; "generated_texts"; "errors"]%string.
Proof. reflexivity. Qed.

Lemma report_items_NoDup (r : Report.t) : NoDup (map fst (report_items r)).
Proof.
  rewrite report_items_keys.
  repeat (constructor; [simpl; intuition discriminate |]).
  constructor.
Qed.

(** ** Splitting at a character *)

Lemma split_nonempty (sep : ascii) (s : string) : split sep s <> [].
Proof.
  destruct s as [| c rest]; simpl.
  - discriminate.
  - destruct (Ascii.eqb c sep); [discriminate |].
    destruct (split sep rest); discriminate.
Qed.

(** A text that holds the separator splits into two parts at least. *)
Lemma split_contains (sep : ascii) (s : string) :
  contains sep s = true ->
  exists a b more, split sep s = a :: b :: more.
Proof.
  induction s as [| c rest IH]; simpl; intros H.
  - discriminate H.
  - destruct (Ascii.eqb c sep); simpl in H.
    + destruct (split sep rest) as [| b more] eqn:E.
      * destruct (split_nonempty sep rest E).
      * exists EmptyString, b, more. reflexivity.
    + destruct (IH H) as (a & b & more & E). rewrite E.
      exists (String c a), b, more. reflexivity.
Qed.

(** A text without the separator is its own single part. *)
Lemma split_none (sep : ascii) (s : string) :
  contains sep s = false -> split sep s = [s].
Proof.
  induction s as [| c rest IH]; simpl; intros H.
  - reflexivity.
  - apply orb_false_iff in H. destruct H as (Hc & Hrest).
    rewrite Hc, (IH Hrest). reflexivity.
Qed.

(** The first part ends at the first separator. *)
Lemma split_first (sep : ascii) (a s : string) :
  contains sep a = false ->
  split sep (a ++ String sep s) = a :: split sep s.
Proof.
  induction a as [| c rest IH]; simpl; intros H.
  - rewrite Ascii.eqb_refl. reflexivity.
  - apply orb_false_iff in H. destruct H as (Hc & Hrest).
    rewrite Hc, (IH Hrest). reflexivity.
Qed.

Lemma contains_app (sep : ascii) (a s : string) :
  contains sep (a ++ String sep s) = true.
Proof.
  induction a as [| c rest IH]; simpl.
  - rewrite Ascii.eqb_refl. reflexivity.
  - rewrite IH. apply orb_true_r.
Qed.

(** ** The record [main] saves *)

(** An item with a separator is always taken in. *)
Lemma add_metadata_Ok (result_json : dict) (item : string) :
  contains "=" item = true ->
  exists d, add_metadata result_json item = Ok d.
Proof.
  intros H. unfold add_metadata. rewrite H.
  destruct (split_contains "=" item H) as (a & b & more & E).
  rewrite E. simpl. eexists. reflexivity.
Qed.

Lemma add_all_metadata_ValueError (metadata : list string) :
  forall result_json : dict,
    (exists item, In item metadata /\ contains "=" item = false) ->
    add_all_metadata result_json metadata = Raise ValueError.
Proof.
  induction metadata as [| item rest IH]; intros d (bad & Hin & Hbad).
  - destruct Hin.
  - simpl. destruct (contains "=" item) eqn:E.
    + destruct (add_metadata_Ok d item E) as (d' & Hd'). rewrite Hd'. simpl.
      apply IH. exists bad. split; [| exact Hbad].
      destruct Hin as [-> | Hin]; [| exact Hin].
      rewrite E in Hbad. discriminate Hbad.
    + unfold add_metadata. rewrite E. reflexivity.
Qed.

(** X14. When the result is to be saved and one item of [--metadata] has no
    ["="], building the record raises [ValueError], whatever the other
    items are and wherever the item stands: nothing is saved. *)
Theorem metadata_without_equals_ValueError (args : Args.t)
    (save : SaveArgs.t) (current_dt : string) (benchmark_result : Report.t)
    (metadata : list string) :
  SaveArgs.save_result save = true ->
  SaveArgs.metadata save = Some metadata ->
  (exists item, In item metadata /\ contains "=" item = false) ->
  result_record args save current_dt benchmark_result = Raise ValueError.
Proof.
  intros Hsave Hmeta Hbad. unfold result_record. rewrite Hsave, Hmeta.
  destruct metadata as [| item rest].
  - destruct Hbad as (bad & [] & _).
  - rewrite (add_all_metadata_ValueError (item :: rest) _ Hbad).
    reflexivity.
Qed.

Lemma metadata_without_equals_ValueError_witness :
  result_record Scenario.args
    (SaveArgs.Build None true (Some ["tp=1"; "nightly"]%string))
    "20240101-000000" Cases.report = Raise ValueError.
Proof.
  apply (metadata_without_equals_ValueError Scenario.args _ _ _
           ["tp=1"; "nightly"]%string).
  - reflexivity.
  - reflexivity.
  - exists "nightly"%string. split; [right; left |]; reflexivity.
Defined.

(** What a record that was built is made of. *)
Lemma result_record_Some (args : Args.t) (save : SaveArgs.t)
    (current_dt : string) (benchmark_result : Report.t) (d : dict) :
  result_record args save current_dt benchmark_result = Ok (Some d) ->
  exists before : dict,
    d = dict_merge
          (dict_set before "request_rate"
             (if (Args.request_rate args <? infinity)%float
              then Json.Float (Args.request_rate args)
              else Json.Str "inf"))
          (report_items benchmark_result).
Proof.
  unfold result_record. intros H.
  destruct (SaveArgs.save_result save); [| discriminate H].
  bind_inv H. injection H as <-. eexists. reflexivity.
Qed.

(** X15. In a record that was built, every key of the benchmark result has
    the value of the benchmark result: an item of [--metadata] with such a
    key (["duration=..."], ["completed=..."]) has no effect. *)
Theorem benchmark_result_overrides (args : Args.t) (save : SaveArgs.t)
    (current_dt : string) (benchmark_result : Report.t) (d : dict)
    (key : string) (value : Json.t) :
  result_record args save current_dt benchmark_result = Ok (Some d) ->
  In (key, value) (report_items benchmark_result) ->
  dict_get d key = Some value.
Proof.
  intros H Hin.
  destruct (result_record_Some _ _ _ _ _ H) as (before & ->).
  apply dict_merge_wins; [apply report_items_NoDup | exact Hin].
Qed.

Lemma benchmark_result_overrides_witness :
  exists d,
    result_record Scenario.args Cases.save "20240101-000000" Cases.report
      = Ok (Some d) /\
    dict_get d "duration" = Some (Json.Float 2).
Proof.
  destruct (result_record Scenario.args Cases.save "20240101-000000"
              Cases.report) as [[d |] | e] eqn:E.
  - exists d. split; [reflexivity |].
    apply (benchmark_result_overrides _ _ _ _ _ _ _ E).
    left. reflexivity.
  - vm_compute in E. discriminate E.
  - vm_compute in E. discriminate E.
Defined.

(** X16. In a record that was built, ["request_rate"] is the rate itself
    when it is below infinity and the text ["inf"] otherwise, so also for a
    rate that is NaN; no item of [--metadata] changes it. *)
Theorem saved_request_rate (args : Args.t) (save : SaveArgs.t)
    (current_dt : string) (benchmark_result : Report.t) (d : dict) :
  result_record args save current_dt benchmark_result = Ok (Some d) ->
  dict_get d "request_rate"
    = Some (if (Args.request_rate args <? infinity)%float
            then Json.Float (Args.request_rate args)
            else Json.Str "inf").
Proof.
  intros H.
  destruct (result_record_Some _ _ _ _ _ H) as (before & ->).
  rewrite dict_merge_other.
  - apply dict_get_set_same.
  - rewrite report_items_keys. simpl. intuition discriminate.
Qed.

Lemma saved_request_rate_witness :
  exists d,
    result_record
      (Args.Build "vllm" "m" 1 false 2 nan false 2 0 3)
      (SaveArgs.Build None true (Some ["request_rate=7"]%string))
      "20240101-000000" Cases.report = Ok (Some d) /\
    dict_get d "request_rate" = Some (Json.Str "inf").
Proof.
  destruct (result_record
              (Args.Build "vllm" "m" 1 false 2 nan false 2 0 3)
              (SaveArgs.Build None true (Some ["request_rate=7"]%string))
              "20240101-000000" Cases.report) as [[d |] | e] eqn:E.
  - exists d. split; [reflexivity |].
    rewrite (saved_request_rate _ _ _ _ _ E). reflexivity.
  - vm_compute in E. discriminate E.
  - vm_compute in E. discriminate E.
Defined.

(** X17. An item [key=value] of [--metadata] whose key and value are
    ASCII text is stored as the stripped key with the stripped value; when
    the item goes on with a second ["="], what follows it is dropped. *)
Theorem metadata_item_stored (result_json : dict) (key value rest : string) :
  is_ascii key = true ->
  is_ascii value = true ->
  contains "=" key = false ->
  contains "=" value = false ->
  add_metadata result_json (key ++ String "=" value)
    = Ok (dict_set result_json (strip key) (Json.Str (strip value))) /\
  add_metadata result_json
    (key ++ String "=" (value ++ String "=" rest))
    = Ok (dict_set result_json (strip key) (Json.Str (strip value))).
Proof.
  intros _ _ Hk Hv. unfold add_metadata. rewrite !contains_app.
  rewrite !(split_first "=" key _ Hk).
  rewrite (split_none "=" value Hv), (split_first "=" value rest Hv).
  split; reflexivity.
Qed.

Lemma metadata_item_stored_witness :
  add_metadata [] " version = 0.3.3 = rc1"
    = Ok [("version"%string, Json.Str "0.3.3")].
Proof.
  destruct (metadata_item_stored [] " version " " 0.3.3 " " rc1"
              eq_refl eq_refl eq_refl eq_refl) as (_ & H).
  exact H.
Defined.

(** ** Threaded mode when no thread stops early *)

Lemma make_input_prompt_len (model_id api_url : string) (best_of : Z)
    (use_beam_search : bool) (request : Request) :
  RequestFuncInput.prompt_len
    (make_input model_id api_url best_of use_beam_search request)
  = item1 request.
Proof. destruct request as [[prompt prompt_len] output_len]. reflexivity. Qed.

(** A request function that copies the prompt length of its input answers
    with the prompt lengths of the inputs. *)
Lemma answers_prompt_len (f : Env.request_func)
    (inputs : list RequestFuncInput.t) :
  (forall c i,
     RequestFuncOutput.prompt_len (f c i) = RequestFuncInput.prompt_len i) ->
  forall c,
    map RequestFuncOutput.prompt_len (answers f c inputs)
      = map RequestFuncInput.prompt_len inputs.
Proof.
  intros Hcopy. induction inputs as [| i rest IH]; intros c; simpl.
  - reflexivity.
  - rewrite Hcopy, IH. reflexivity.
Qed.

(** Two lists with the same image under two maps agree position by
    position. *)
Lemma nth_error_map_eq {A B C : Type} (f : A -> C) (g : B -> C)
    (l : list A) (l' : list B) (j : nat) (a : A) :
  map f l = map g l' ->
  nth_error l j = Some a ->
  exists b, nth_error l' j = Some b /\ g b = f a.
Proof.
  intros Hmap Hnth.
  assert (H : nth_error (map f l) j = Some (f a)).
  { rewrite nth_error_map, Hnth. reflexivity. }
  rewrite Hmap, nth_error_map in H.
  destruct (nth_error l' j) as [b |]; [| discriminate H].
  injection H as H. exists b. split; [reflexivity | exact H].
Qed.

(** X18. In threaded mode over a pool of [N * k] requests, when no thread
    stops early and the request functions copy the prompt length of their
    input into the outcome, a report that [main] returns has a
    [total_input_tokens] that is the sum of the prompt lengths of the
    successful outcomes, and lists the prompt lengths of the pool in
    order. *)
Theorem threaded_total_input (host : Env.t) (workers : nat -> Env.t)
    (request_func : nat -> Env.request_func) (args : Args.t)
    (api_url : string) (tokenizer : Tokenizer)
    (input_requests : list Request) (N k : nat) (report : Report.t) :
  Args.num_threads args = Z.of_nat N ->
  0 < N ->
  Args.enable_async args = false ->
  Args.num_prompts args = Z.of_nat k ->
  List.length input_requests = N * k ->
  (forall i, i < N ->
     Env.REQUEST_FUNCS (workers i) (Args.backend args)
       = Some (request_func i)) ->
  (forall i, i < N -> paces (workers i) (Args.request_rate args)) ->
  (forall i, i < N -> Env.sleep (workers i) (ramp_up_of args i) = Ok tt) ->
  (forall i, i < N ->
     dispatched (workers i) (Args.thread_stop_time args) k = k) ->
  (forall i c input,
     RequestFuncOutput.prompt_len (request_func i c input)
       = RequestFuncInput.prompt_len input) ->
  main host workers args api_url tokenizer input_requests = Ok report ->
  exists all_outputs,
    run_threads workers args api_url tokenizer input_requests
      = Ok all_outputs /\
    Report.input_lens report = map item1 input_requests /\
    Report.total_input_tokens report
      = Py.sum (map RequestFuncOutput.prompt_len
                  (filter RequestFuncOutput.success all_outputs)).
Proof.
  intros HN Hpos Hsync Hk Hpool Hf Hp Hsleep Hfull Hcopy Hmain.
  set (input_of := make_input (Args.model args) api_url (Args.best_of args)
                     (Args.use_beam_search args)).
  set (outputs_of := fun i =>
         answers (request_func i) 0
           (map input_of (thread_requests args input_requests i))).
  assert (Hlen : forall i, i < N ->
            List.length (thread_requests args input_requests i) = k).
  { intros i Hi.
    apply (thread_requests_length args input_requests N k Hk Hpool i Hi). }
  assert (Hall : run_threads workers args api_url tokenizer input_requests
                 = Ok (List.concat (map outputs_of (seq 0 N)))).
  { unfold run_threads. rewrite HN, Nat2Z.id.
    destruct (start_join workers args api_url tokenizer input_requests
                outputs_of ltac:(lia) (seq 0 N))
      as (threads & Hstart & Hjoin).
    - intros i Hi. apply in_seq in Hi.
      destruct (benchThread_run_outputs (workers i)
                  (Args.thread_stop_time args) (Z.of_nat i)
                  (ramp_up_of args i) (Args.backend args) api_url
                  (Args.model args) tokenizer
                  (thread_requests args input_requests i)
                  (Args.best_of args) (Args.use_beam_search args)
                  (Args.request_rate args) (request_func i))
        as (w' & Hrun & _).
      + apply Hf. lia.
      + apply Hp. lia.
      + apply Hsleep. lia.
      + lia.
      + unfold benchThread_get_result, thread_run. rewrite Hrun. simpl.
        rewrite (Hlen i ltac:(lia)), (Hfull i ltac:(lia)).
        rewrite <- (Hlen i ltac:(lia)), firstn_all. reflexivity.
    - rewrite Hstart. simpl. rewrite Hjoin. reflexivity. }
  assert (Hlens : map RequestFuncOutput.prompt_len
                    (List.concat (map outputs_of (seq 0 N)))
                  = map item1 input_requests).
  { transitivity
      (map item1
         (List.concat (map (thread_requests args input_requests) (seq 0 N)))).
    2: { f_equal.
         apply (thread_requests_cover args input_requests N k Hk Hpool). }
    rewrite !concat_map, !map_map. f_equal. apply map_ext. intros i.
    unfold outputs_of. rewrite (answers_prompt_len _ _ (Hcopy i)).
    rewrite map_map. apply map_ext. intros request.
    apply make_input_prompt_len. }
  exists (List.concat (map outputs_of (seq 0 N))).
  split; [exact Hall |].
  unfold main in Hmain.
  assert (Hle : (Args.num_threads args <=? 0)%Z = false) by lia.
  rewrite Hle, Hsync, Hall in Hmain. simpl in Hmain.
  bind_inv Hmain. injection Hmain as <-. simpl.
  split; [exact Hlens |].
  destruct v as [m lens]. simpl.
  destruct (calculate_metrics_Ok _ _ _ _ _ E)
    as (st & x & Hst & _ & Hti & _).
  simpl in Hti. rewrite Hti.
  apply (tally_from_total_input _ _ _ _ _ _ Hst).
  intros j o Hj _.
  destruct (nth_error_map_eq RequestFuncOutput.prompt_len item1 _ _ j o
              Hlens Hj) as (request & Hreq & Hitem).
  exists request. split; [exact Hreq | exact Hitem].
Qed.

Lemma threaded_total_input_witness :
  exists report,
    main Scenario.host Scenario.workers
      (Args.Build "vllm" "m" 1 false 2 infinity false 2 0 0) "u"
      Scenario.five_tokens Scenario.pool = Ok report /\
    Report.total_input_tokens report = 100%Z.
Proof.
  destruct (main Scenario.host Scenario.workers
              (Args.Build "vllm" "m" 1 false 2 infinity false 2 0 0) "u"
              Scenario.five_tokens Scenario.pool) as [report | e] eqn:E.
  - exists report. split; [reflexivity |].
    destruct (threaded_total_input Scenario.host Scenario.workers
                (fun _ => Scenario.echo)
                (Args.Build "vllm" "m" 1 false 2 infinity false 2 0 0) "u"
                Scenario.five_tokens Scenario.pool 2 2 report)
      as (all_outputs & Hall & _ & Hsum); try reflexivity.
    + lia.
    + intros i Hi w. reflexivity.
    + exact E.
    + rewrite Hsum. vm_compute in Hall. injection Hall as <-. reflexivity.
  - vm_compute in E. discriminate E.
Defined.
